(** * EntityRepository: a shallow embedding of [src/index.ts]

    The repository class forwards every call to a Mongoose model and
    translates driver exceptions into [HttpException]s.  The embedding has
    three layers:

    - [Js]: the fragment of JavaScript values and operators that the class
      applies to caller objects, driver errors and documents;
    - [Effects]: a state/exception/trace monad in which the Mongoose model is
      an explicit parameter and every driver invocation is recorded;
    - [Repo]: the methods of [EntityRepository], statement by statement. *)

From Stdlib Require Import ZArith List String Ascii Bool Lia DecimalString.
Import ListNotations.

Local Open Scope string_scope.
Local Open Scope Z_scope.

(* ================================================================== *)
(** ** JavaScript values *)
(* ================================================================== *)

Module Js.

(** The class of an object, as far as the repository can tell them apart:
    plain objects, [Error] instances (driver errors, [TypeError]s) and
    NestJS [HttpException]s. *)
Inductive Class : Type :=
| ClsObject
| ClsError
| ClsHttpException.

(** Values.  Numbers are the integers together with [NaN]; other doubles do
    not occur in the code paths modelled here.  The property list of an
    object is what a property read finds, in enumeration order; for plain
    objects these are exactly the own enumerable properties. *)
#[warnings="-register-all"]
Inductive Value : Type :=
| JUndefined
| JNull
| JBool (b : bool)
| JNum (n : Z)
| JNaN
| JStr (s : string)
| JArr (elems : list Value)
| JObj (cls : Class) (props : list (string * Value)).

Definition Props : Type := list (string * Value).

Definition nullish (v : Value) : bool :=
  match v with
  | JUndefined | JNull => true
  | _ => false
  end.

(** ToBoolean. *)
Definition truthy (v : Value) : bool :=
  match v with
  | JUndefined | JNull | JNaN => false
  | JBool b => b
  | JNum n => negb (n =? 0)
  | JStr s => negb (String.eqb s EmptyString)
  | JArr _ | JObj _ _ => true
  end.

(** [a || b]. *)
Definition js_or (a b : Value) : Value := if truthy a then a else b.

(** Number::toString for an integer in plain decimal notation. *)
Definition number_toString (n : Z) : string :=
  NilZero.string_of_int (Z.to_int n).

Fixpoint lookup (k : string) (ps : Props) : option Value :=
  match ps with
  | [] => None
  | (k', v) :: rest => if String.eqb k' k then Some v else lookup k rest
  end.

(** Error.prototype.toString, from the already converted name and message. *)
Definition error_toString (name msg : string) : string :=
  if String.eqb name EmptyString then msg
  else if String.eqb msg EmptyString then name
  else name ++ ": " ++ msg.

(** ToString, as a template literal applies it. *)
Fixpoint toString (v : Value) : string :=
  match v with
  | JUndefined => "undefined"
  | JNull => "null"
  | JBool true => "true"
  | JBool false => "false"
  | JNum n => number_toString n
  | JNaN => "NaN"
  | JStr s => s
  | JArr elems =>
      (fix join (xs : list Value) : string :=
         match xs with
         | [] => EmptyString
         | x :: rest =>
             let sx := match x with
                       | JUndefined | JNull => EmptyString
                       | _ => toString x
                       end in
             match rest with
             | [] => sx
             | _ :: _ => sx ++ "," ++ join rest
             end
         end) elems
  | JObj ClsObject _ => "[object Object]"
  | JObj _ props =>
      let field :=
        fix field (k dflt : string) (ps : Props) {struct ps} : string :=
          match ps with
          | [] => dflt
          | (k', x) :: rest =>
              if String.eqb k' k
              then match x with
                   | JUndefined => dflt
                   | _ => toString x
                   end
              else field k dflt rest
          end in
      error_toString (field "name" "Error" props)
                     (field "message" EmptyString props)
  end.

(** [new TypeError(msg)]. *)
Definition TypeError (msg : string) : Value :=
  JObj ClsError [("name", JStr "TypeError"); ("message", JStr msg)].

(** [v.k] for a name [k] that is neither an array index nor a built-in of
    arrays or strings (the repository reads [code], [name], [message],
    [keyValue] and [__v] only).  Reading a property of [undefined] or [null]
    throws. *)
Definition get_member (v : Value) (k : string) : Value + Value :=
  match v with
  | JUndefined | JNull =>
      inr (TypeError ("Cannot read properties of " ++ toString v
                        ++ " (reading '" ++ k ++ "')"))
  | JObj _ props =>
      match lookup k props with
      | Some x => inl x
      | None => inl JUndefined
      end
  | _ => inl JUndefined
  end.

(** [v?.k]. *)
Definition get_member_opt (v : Value) (k : string) : Value :=
  match get_member v k with
  | inl x => x
  | inr _ => JUndefined
  end.

Fixpoint indexed (i : nat) (xs : list Value) : Props :=
  match xs with
  | [] => []
  | x :: rest => (number_toString (Z.of_nat i), x) :: indexed (S i) rest
  end.

Fixpoint chars (s : string) : list Value :=
  match s with
  | EmptyString => []
  | String c rest => JStr (String c EmptyString) :: chars rest
  end.

(** The own enumerable properties that [{...v}] copies. *)
Definition own_props (v : Value) : Props :=
  match v with
  | JObj _ props => props
  | JArr elems => indexed 0 elems
  | JStr s => indexed 0 (chars s)
  | _ => []
  end.

(** Assignment of one property in an object literal under construction: an
    existing key keeps its position, a new key goes last. *)
Fixpoint set_prop (k : string) (v : Value) (ps : Props) : Props :=
  match ps with
  | [] => [(k, v)]
  | (k', x) :: rest =>
      if String.eqb k' k then (k', v) :: rest
      else (k', x) :: set_prop k v rest
  end.

(** [Object.values(v)]; throws on [undefined] and [null]. *)
Definition Object_values (v : Value) : list Value + Value :=
  match v with
  | JUndefined | JNull =>
      inr (TypeError "Cannot convert undefined or null to object")
  | _ => inl (map snd (own_props v))
  end.

(** [xs[0]]. *)
Definition first (xs : list Value) : Value :=
  match xs with
  | [] => JUndefined
  | x :: _ => x
  end.

(** [a === b].  Two objects or arrays are equal only when they are the same
    allocation; the operands compared by the repository come from the caller
    and from the driver, so they never are. *)
Definition strict_eq (a b : Value) : bool :=
  match a, b with
  | JUndefined, JUndefined => true
  | JNull, JNull => true
  | JBool x, JBool y => Bool.eqb x y
  | JNum x, JNum y => x =? y
  | JStr x, JStr y => String.eqb x y
  | _, _ => false
  end.

(** [a + 1]: string concatenation when [a] converts to a string primitive,
    numeric addition otherwise. *)
Definition add_one (a : Value) : Value :=
  match a with
  | JUndefined | JNaN => JNaN
  | JNull => JNum 1
  | JBool b => JNum ((if b then 1 else 0) + 1)
  | JNum n => JNum (n + 1)
  | JStr _ | JArr _ | JObj _ _ => JStr (toString a ++ "1")
  end.

End Js.

(* ================================================================== *)
(** ** Driver interface and effects *)
(* ================================================================== *)

Module Effects.
Import Js.

(** How a statement or a promise ends: with a value, or with a thrown
    value. *)
Inductive Outcome (A : Type) : Type :=
| Ok (a : A)
| Threw (e : Value).
Arguments Ok {A} a.
Arguments Threw {A} e.

(** Result shapes that Mongoose declares for writes and deletes. *)
Record UpdateResult : Type := { modifiedCount : Z }.
Record DeleteResult : Type := { deletedCount : Z }.

(** A [ClientSession] handle. *)
Definition ClientSession : Type := nat.

(** The operations of the Mongoose model, its connection and its sessions
    that the repository invokes, with the arguments it passes and the type
    of what they resolve to.  A chain such as
    [find(f, p).skip(a).limit(b).exec()] is one operation. *)
Inductive DriverOp : Type -> Type :=
| ModelSave (doc options : Value) : DriverOp Value
| ModelCreate (docs : list Value) : DriverOp Value
| ModelFind (filter projection : Value) (skip_limit : option (Z * Z))
  : DriverOp Value
| ModelFindById (id : string) (projection : Value)
                (session : option ClientSession) : DriverOp Value
| ModelFindOne (filter projection : Value) : DriverOp Value
| ModelCountDocuments (filter : Value) : DriverOp Z
| ModelDistinct (field : string) (filter : Value) : DriverOp Value
| ModelUpdateOne (filter update : Value) : DriverOp UpdateResult
| ModelUpdateMany (filter update : Value) : DriverOp UpdateResult
| ModelFindOneAndUpdate (filter update options : Value) : DriverOp Value
| ModelFindByIdAndUpdate (id : string) (update options : Value)
                         (session : option ClientSession) : DriverOp Value
| ModelDeleteOne (filter : Value) : DriverOp DeleteResult
| ModelDeleteMany (filter : Value) : DriverOp DeleteResult
| ModelAggregate (pipeline : list Value) : DriverOp Value
| ModelStartSession : DriverOp ClientSession
| ModelDbReadyState : DriverOp Value
| SessionStartTransaction (session : ClientSession) : DriverOp unit
| SessionCommitTransaction (session : ClientSession) : DriverOp unit
| SessionAbortTransaction (session : ClientSession) : DriverOp unit
| SessionEndSession (session : ClientSession) : DriverOp unit.

(** The model behind [options.entityModel]: given an operation and the state
    of the database it answers with an outcome and the next state. *)
Definition Driver (S : Type) : Type :=
  forall R : Type, DriverOp R -> S -> Outcome R * S.

(** What an execution leaves behind, in order. *)
Inductive Event : Type :=
| Invoked {R : Type} (op : DriverOp R)
| Logged (line : string).

(** A promise that has settled. *)
Definition Promise (R : Type) : Type := Outcome R.

Section Monad.
Context {S : Type}.

Definition M (A : Type) : Type := S -> Outcome A * S * list Event.

Definition ret {A} (a : A) : M A := fun s => (Ok a, s, []).

Definition throw {A} (e : Value) : M A := fun s => (Threw e, s, []).

Definition bind {A B} (m : M A) (k : A -> M B) : M B :=
  fun s =>
    match m s with
    | (Ok a, s1, t1) =>
        match k a s1 with
        | (r, s2, t2) => (r, s2, (t1 ++ t2)%list)
        end
    | (Threw e, s1, t1) => (Threw e, s1, t1)
    end.

(** [try { body } catch (e) { handler e }]. *)
Definition try_catch {A} (body : M A) (handler : Value -> M A) : M A :=
  fun s =>
    match body s with
    | (Ok a, s1, t1) => (Ok a, s1, t1)
    | (Threw e, s1, t1) =>
        match handler e s1 with
        | (r, s2, t2) => (r, s2, (t1 ++ t2)%list)
        end
    end.

(** A value or a [TypeError] computed without the driver. *)
Definition lift {A} (r : A + Value) : M A :=
  match r with
  | inl a => ret a
  | inr e => throw e
  end.

Definition member (v : Value) (k : string) : M Value :=
  lift (get_member v k).

Definition logger_error (line : string) : M unit :=
  fun s => (Ok tt, s, [Logged line]).

Variable driver : Driver S.

(** Starting a driver operation yields its promise; nothing is thrown at
    the call site. *)
Definition invoke {R} (op : DriverOp R) : M (Promise R) :=
  fun s =>
    match driver R op s with
    | (r, s1) => (Ok r, s1, [Invoked op])
    end.

(** [await p]. *)
Definition await {R} (p : Promise R) : M R :=
  fun s => (p, s, []).

(** [await op(...)], and also a synchronous driver call. *)
Definition call {R} (op : DriverOp R) : M R :=
  bind (invoke op) await.

(** A call whose promise is dropped, as in [session.endSession();]. *)
Definition fire {R} (op : DriverOp R) : M unit :=
  bind (invoke op) (fun _ => ret tt).

End Monad.

Arguments M S A : clear implicits.

Definition outcome {S A} (r : Outcome A * S * list Event) : Outcome A :=
  fst (fst r).
Definition final {S A} (r : Outcome A * S * list Event) : S :=
  snd (fst r).
Definition events {S A} (r : Outcome A * S * list Event) : list Event :=
  snd r.

End Effects.

Declare Scope repo_scope.
Delimit Scope repo_scope with repo.
Notation "x <- c1 ;; c2" := (Effects.bind c1 (fun x => c2))
  (at level 61, c1 at next level, right associativity) : repo_scope.
Notation "' pat <- c1 ;; c2" :=
  (Effects.bind c1 (fun x => match x with pat => c2 end))
  (at level 61, pat pattern, c1 at next level, right associativity)
  : repo_scope.
Notation "c1 ;; c2" := (Effects.bind c1 (fun _ => c2))
  (at level 61, right associativity) : repo_scope.

(* ================================================================== *)
(** ** The repository class *)
(* ================================================================== *)

(** The members of NestJS's [HttpStatus] that the class names. *)
Module HttpStatus.
Definition BAD_REQUEST : Z := 400.
Definition NOT_FOUND : Z := 404.
Definition CONFLICT : Z := 409.
Definition INTERNAL_SERVER_ERROR : Z := 500.
End HttpStatus.

Module Repo.
Import Js Effects.
Local Open Scope repo_scope.

(** [new HttpException(response, status)] with a string response: the
    message is the response and no [code] property exists. *)
Definition HttpException (response : string) (status : Z) : Value :=
  JObj ClsHttpException
       [("response", JStr response); ("status", JNum status);
        ("message", JStr response); ("name", JStr "HttpException")].

Definition is_HttpException (v : Value) : bool :=
  match v with
  | JObj ClsHttpException _ => true
  | _ => false
  end.

(** The constructor's [options] argument.  The constructor throws unless
    [entityModel] is present, so every repository has one; an absent
    [errLogger] counts as [false]. *)
Record Options (S : Type) : Type := {
  entityModel : Driver S;
  errLogger : bool
}.
Arguments entityModel {S} _.
Arguments errLogger {S} _.

(** [options?: { skip?: number; limit?: number }] of [find]. *)
Record FindOptions : Type := {
  skip : option Z;
  limit : option Z
}.

(** [options] of [findOneAndUpdate]. *)
Record UpdateOptions : Type := {
  versionKey : string;
  incVersion : bool;
  upsert : bool
}.

Definition default_UpdateOptions : UpdateOptions :=
  {| versionKey := "__v"; incVersion := false; upsert := false |}.

(** [n || d] for an optional number. *)
Definition num_or (n : option Z) (d : Z) : Z :=
  match n with
  | Some x => if x =? 0 then d else x
  | None => d
  end.

Section Methods.
Context {S : Type}.
Variable options : Options S.

Local Abbreviation model := (entityModel options).

(** The [switch (error.code)] of [handleDatabaseError]: the message and the
    status that the thrown exception is built from. *)
Definition translate (error : Value) : M S (string * Z) :=
  code <- member error "code" ;;
  if strict_eq code (JNum 11000) then
    keyValue <- member error "keyValue" ;;
    values <- lift (Object_values keyValue) ;;
    ret ((toString (first values) ++ " already exists")%string,
         HttpStatus.BAD_REQUEST)
  else if strict_eq code (JNum 11001) then
    ret ("Duplicate key error", HttpStatus.BAD_REQUEST)
  else if strict_eq code (JNum 12000) then
    ret ("Invalid index specification", HttpStatus.BAD_REQUEST)
  else if strict_eq code (JNum 12010) then
    ret ("Cannot build index on a non-existing field",
         HttpStatus.BAD_REQUEST)
  else if strict_eq code (JNum 12102) then
    ret ("Index key too long", HttpStatus.BAD_REQUEST)
  else if strict_eq code (JNum 12134) then
    ret ("Index not found", HttpStatus.BAD_REQUEST)
  else
    ret ("Database operation failed", HttpStatus.INTERNAL_SERVER_ERROR).

(** The body ends in [throw], so the method never completes normally and
    fits any result type. *)
Definition handleDatabaseError {A} (error : Value) : M S A :=
  (if errLogger options then
     let name := get_member_opt error "name" in
     message <- member error "message" ;;
     logger_error ("Database Error: " ++ toString name ++ " -  "
                     ++ toString (js_or message error))%string
   else ret tt) ;;
  ' (errorMessage, errorStatusCode) <- translate error ;;
  throw (HttpException errorMessage errorStatusCode).

Definition create (createEntity createOptions : Value) : M S Value :=
  try_catch
    (call model (ModelSave createEntity createOptions))
    (fun err => handleDatabaseError err).

Definition createMany (createEntities : list Value) : M S Value :=
  try_catch
    (createdDocuments <- call model (ModelCreate createEntities) ;;
     ret createdDocuments)
    (fun err => handleDatabaseError err).

(** No [try]: the promise of [exec()] is returned as it is. *)
Definition find (entityFilterQuery projection : Value)
                (opts : option FindOptions) : M S Value :=
  p <- invoke model
         (ModelFind entityFilterQuery projection
            (Some (num_or (match opts with
                           | Some o => skip o
                           | None => None
                           end) 0,
                   num_or (match opts with
                           | Some o => limit o
                           | None => None
                           end) 0))) ;;
  await p.

Definition findById (id : string) (projection : Value) : M S Value :=
  try_catch
    (data <- call model (ModelFindById id projection None) ;;
     (if negb (truthy data)
      then throw (HttpException ("No data found with ID " ++ id)%string
                                HttpStatus.NOT_FOUND)
      else ret tt) ;;
     ret data)
    (fun err => handleDatabaseError err).

Definition findOne (entityFilterQuery projection : Value) : M S Value :=
  p <- invoke model (ModelFindOne entityFilterQuery projection) ;;
  await p.

(** [return ...exec()] inside [try] without [await]: the [try] block ends
    with the promise in hand, and the promise settles the method's result
    after the block has been left. *)
Definition fullTextSearch (searchText searchField : string) : M S Value :=
  p <- try_catch
         (let searchQuery :=
            JObj ClsObject
                 [(searchField,
                   JObj ClsObject [("$regex", JStr searchText);
                                   ("$options", JStr "i")])] in
          invoke model (ModelFind searchQuery JUndefined None))
         (fun error => handleDatabaseError error) ;;
  await p.

Definition count (entityFilterQuery : Value) : M S Z :=
  try_catch
    (call model (ModelCountDocuments entityFilterQuery))
    (fun err => handleDatabaseError err).

Definition distinctValues (field : string) (entityFilterQuery : Value)
  : M S Value :=
  try_catch
    (call model (ModelDistinct field entityFilterQuery))
    (fun err => handleDatabaseError err).

Definition updateOne (filterQuery update : Value) : M S Z :=
  try_catch
    (updateResult <- call model (ModelUpdateOne filterQuery update) ;;
     ret (num_or (Some (modifiedCount updateResult)) 0))
    (fun err => handleDatabaseError err).

Definition updateMany (filterQuery update : Value) : M S Z :=
  try_catch
    (updateResult <- call model (ModelUpdateMany filterQuery update) ;;
     ret (num_or (Some (modifiedCount updateResult)) 0))
    (fun err => handleDatabaseError err).

(** [opts] is the third argument when the caller passes one; the parameter
    default applies otherwise. *)
Definition findOneAndUpdate (filterQuery updatedObject : Value)
                            (opts : option UpdateOptions) : M S Value :=
  let opts := match opts with
              | Some given => given
              | None => default_UpdateOptions
              end in
  try_catch
    (call model
       (ModelFindOneAndUpdate
          filterQuery
          (if incVersion opts
           then JObj ClsObject
                     (set_prop "$inc"
                        (JObj ClsObject [(versionKey opts, JNum 1)])
                        (own_props updatedObject))
           else updatedObject)
          (JObj ClsObject [("new", JBool true);
                           ("upsert", JBool (upsert opts))])))
    (fun err => handleDatabaseError err).

Definition updateById (id : string) (update : Value) : M S Value :=
  session <- call model ModelStartSession ;;
  call model (SessionStartTransaction session) ;;
  try_catch
    (existingDoc <- call model (ModelFindById id JUndefined (Some session)) ;;
     (if negb (truthy existingDoc)
      then throw (HttpException ("No data found with ID " ++ id)%string
                                HttpStatus.NOT_FOUND)
      else ret tt) ;;
     (* Simulate optimistic concurrency control *)
     supplied <- member update "__v" ;;
     (if truthy supplied
      then stored <- member existingDoc "__v" ;;
           supplied' <- member update "__v" ;;
           if negb (strict_eq stored supplied')
           then throw (HttpException "Concurrency conflict"
                                     HttpStatus.CONFLICT)
           else ret tt
      else ret tt) ;;
     stored <- member existingDoc "__v" ;;
     updatedDoc <- call model
                     (ModelFindByIdAndUpdate
                        id
                        (JObj ClsObject
                              (set_prop "__v" (add_one stored)
                                        (own_props update)))
                        (JObj ClsObject [("new", JBool true)])
                        (Some session)) ;;
     call model (SessionCommitTransaction session) ;;
     fire model (SessionEndSession session) ;;
     ret updatedDoc)
    (fun error =>
       call model (SessionAbortTransaction session) ;;
       fire model (SessionEndSession session) ;;
       handleDatabaseError error).

Definition deleteOne (filterQuery : Value) : M S bool :=
  try_catch
    (deleteResult <- call model (ModelDeleteOne filterQuery) ;;
     ret (deletedCount deleteResult >=? 1))
    (fun err => handleDatabaseError err).

Definition deleteMany (filterQuery : Value) : M S bool :=
  try_catch
    (deleteResult <- call model (ModelDeleteMany filterQuery) ;;
     ret (deletedCount deleteResult >=? 1))
    (fun err => handleDatabaseError err).

Definition startTransaction : M S ClientSession :=
  session <- call model ModelStartSession ;;
  call model (SessionStartTransaction session) ;;
  ret session.

Definition commitTransaction (session : ClientSession) : M S unit :=
  try_catch
    (call model (SessionCommitTransaction session))
    (fun error =>
       call model (SessionAbortTransaction session) ;;
       fire model (SessionEndSession session) ;;
       handleDatabaseError error).

Definition abortTransaction (session : ClientSession) : M S unit :=
  try_catch
    (call model (SessionAbortTransaction session))
    (fun error =>
       fire model (SessionEndSession session) ;;
       handleDatabaseError error).

Definition endTransaction (session : ClientSession) : M S unit :=
  fire model (SessionEndSession session).

Definition aggregate (aggregatePipeline : list Value) : M S Value :=
  try_catch
    (call model (ModelAggregate aggregatePipeline))
    (fun err => handleDatabaseError err).

Definition isDatabaseConnected : M S bool :=
  try_catch
    (readyState <- call model ModelDbReadyState ;;
     let isConnected := strict_eq readyState (JNum 1) in
     ret isConnected)
    (fun _ => ret false).

End Methods.

(** [new Error(message)]. *)
Definition Error (message : string) : Value :=
  JObj ClsError [("name", JStr "Error"); ("message", JStr message)].

(** The constructor's argument as a caller writes it: both members may be
    left out. *)
Record GivenOptions (S : Type) : Type := {
  given_entityModel : option (Driver S);
  given_errLogger : option bool
}.
Arguments given_entityModel {S} _.
Arguments given_errLogger {S} _.

(** The constructor.  Without an argument the parameter default
    [{ errLogger: false }] applies, which has no [entityModel]. *)
Definition constructor {S} (given : option (GivenOptions S))
  : Options S + Value :=
  let options := match given with
                 | Some g => g
                 | None => {| given_entityModel := None;
                              given_errLogger := Some false |}
                 end in
  match given_entityModel options with
  | None => inr (Error "entityModel is required")
  | Some model =>
      inl {| entityModel := model;
             errLogger := match given_errLogger options with
                          | Some b => b
                          | None => false
                          end |}
  end.

End Repo.

(* ================================================================== *)
(** ** The public interface as data *)
(* ================================================================== *)

Module Api.
Import Js Effects Repo.

(** One constructor per public method, with the arguments of a call. *)
Inductive Call : Type -> Type :=
| Create (createEntity createOptions : Value) : Call Value
| CreateMany (createEntities : list Value) : Call Value
| Find (entityFilterQuery projection : Value) (opts : option FindOptions)
  : Call Value
| FindById (id : string) (projection : Value) : Call Value
| FindOne (entityFilterQuery projection : Value) : Call Value
| FullTextSearch (searchText searchField : string) : Call Value
| Count (entityFilterQuery : Value) : Call Z
| DistinctValues (field : string) (entityFilterQuery : Value) : Call Value
| UpdateOne (filterQuery update : Value) : Call Z
| UpdateMany (filterQuery update : Value) : Call Z
| FindOneAndUpdate (filterQuery updatedObject : Value)
                   (opts : option UpdateOptions) : Call Value
| UpdateById (id : string) (update : Value) : Call Value
| DeleteOne (filterQuery : Value) : Call bool
| DeleteMany (filterQuery : Value) : Call bool
| StartTransaction : Call ClientSession
| CommitTransaction (session : ClientSession) : Call unit
| AbortTransaction (session : ClientSession) : Call unit
| EndTransaction (session : ClientSession) : Call unit
| Aggregate (aggregatePipeline : list Value) : Call Value
| IsDatabaseConnected : Call bool.

Definition run {S} (options : Options S) {R} (c : Call R) : M S R :=
  match c in Call R return M S R with
  | Create e o => create options e o
  | CreateMany es => createMany options es
  | Find f p o => find options f p o
  | FindById id p => findById options id p
  | FindOne f p => findOne options f p
  | FullTextSearch t f => fullTextSearch options t f
  | Count f => count options f
  | DistinctValues fld f => distinctValues options fld f
  | UpdateOne f u => updateOne options f u
  | UpdateMany f u => updateMany options f u
  | FindOneAndUpdate f u o => findOneAndUpdate options f u o
  | UpdateById id u => updateById options id u
  | DeleteOne f => deleteOne options f
  | DeleteMany f => deleteMany options f
  | StartTransaction => startTransaction options
  | CommitTransaction s => commitTransaction options s
  | AbortTransaction s => abortTransaction options s
  | EndTransaction s => endTransaction options s
  | Aggregate p => aggregate options p
  | IsDatabaseConnected => isDatabaseConnected options
  end.

(** The name of a driver operation, without its arguments. *)
Definition op_name {R} (op : DriverOp R) : string :=
  match op with
  | ModelSave _ _ => "save"
  | ModelCreate _ => "create"
  | ModelFind _ _ _ => "find"
  | ModelFindById _ _ _ => "findById"
  | ModelFindOne _ _ => "findOne"
  | ModelCountDocuments _ => "countDocuments"
  | ModelDistinct _ _ => "distinct"
  | ModelUpdateOne _ _ => "updateOne"
  | ModelUpdateMany _ _ => "updateMany"
  | ModelFindOneAndUpdate _ _ _ => "findOneAndUpdate"
  | ModelFindByIdAndUpdate _ _ _ _ => "findByIdAndUpdate"
  | ModelDeleteOne _ => "deleteOne"
  | ModelDeleteMany _ => "deleteMany"
  | ModelAggregate _ => "aggregate"
  | ModelStartSession => "startSession"
  | ModelDbReadyState => "db.readyState"
  | SessionStartTransaction _ => "startTransaction"
  | SessionCommitTransaction _ => "commitTransaction"
  | SessionAbortTransaction _ => "abortTransaction"
  | SessionEndSession _ => "endSession"
  end.

(** The driver operations of a trace, by name and in order. *)
Fixpoint invoked (t : list Event) : list string :=
  match t with
  | [] => []
  | Invoked op :: rest => op_name op :: invoked rest
  | Logged _ :: rest => invoked rest
  end.

Fixpoint logged (t : list Event) : list string :=
  match t with
  | [] => []
  | Invoked _ :: rest => logged rest
  | Logged line :: rest => line :: logged rest
  end.


(** The update objects that a trace hands to [findByIdAndUpdate]. *)
Fixpoint written (t : list Event) : list Value :=
  match t with
  | [] => []
  | Invoked (ModelFindByIdAndUpdate _ u _ _) :: rest => u :: written rest
  | _ :: rest => written rest
  end.

End Api.

(* ================================================================== *)
(** ** Concrete drivers *)
(* ================================================================== *)

Module Drivers.
Import Js Effects Repo.

(** What each operation resolves to when nothing interesting happens. *)
Definition quiet {R} (op : DriverOp R) : R :=
  match op in DriverOp R return R with
  | ModelSave doc _ => doc
  | ModelCreate docs => JArr docs
  | ModelFind _ _ _ => JArr []
  | ModelFindById _ _ _ => JNull
  | ModelFindOne _ _ => JNull
  | ModelCountDocuments _ => 0
  | ModelDistinct _ _ => JArr []
  | ModelUpdateOne _ _ => {| modifiedCount := 0 |}
  | ModelUpdateMany _ _ => {| modifiedCount := 0 |}
  | ModelFindOneAndUpdate _ _ _ => JNull
  | ModelFindByIdAndUpdate _ _ _ _ => JNull
  | ModelDeleteOne _ => {| deletedCount := 0 |}
  | ModelDeleteMany _ => {| deletedCount := 0 |}
  | ModelAggregate _ => JArr []
  | ModelStartSession => 7%nat
  | ModelDbReadyState => JNum 1
  | SessionStartTransaction _ => tt
  | SessionCommitTransaction _ => tt
  | SessionAbortTransaction _ => tt
  | SessionEndSession _ => tt
  end.

(** A database that is down: every operation rejects with [e]. *)
Definition rejecting (e : Value) : Driver unit :=
  fun R _ s => (Threw e, s).

(** A collection holding the single document [doc] under every id.  The
    flag says whether [abortTransaction] itself rejects, with [e]. *)
Definition holding (doc : Value) (abort_rejects : bool) (e : Value)
  : Driver unit :=
  fun R op s =>
    match op as op' in DriverOp R' return Outcome R' * unit with
    | ModelFindById _ _ _ => (Ok doc, s)
    | ModelFindByIdAndUpdate _ u _ _ => (Ok (JObj ClsObject (own_props u)), s)
    | SessionAbortTransaction _ =>
        if abort_rejects then (Threw e, s) else (Ok tt, s)
    | op' => (Ok (quiet op'), s)
    end.

(** A [MongoNetworkError] as the driver throws it. *)
Definition network_error : Value :=
  JObj ClsError [("name", JStr "MongoNetworkError");
                 ("message", JStr "connection timed out")].

(** A duplicate key error (E11000) on the given key. *)
Definition duplicate_key (field : string) (v : Value) : Value :=
  JObj ClsError [("name", JStr "MongoServerError");
                 ("message", JStr "E11000 duplicate key error");
                 ("code", JNum 11000);
                 ("keyValue", JObj ClsObject [(field, v)])].

Definition opts_with {S} (d : Driver S) (log : bool) : Options S :=
  {| entityModel := d; errLogger := log |}.

Import Api.

(** A driver that rejects with [e] the operations whose name [fails]
    selects, and otherwise behaves as a collection holding [doc]. *)
Definition selective (fails : string -> bool) (doc e : Value) : Driver unit :=
  fun R op s =>
    if fails (op_name op) then (Threw e, s) else holding doc false e R op s.

Definition rejects_only (name : string) : string -> bool :=
  fun n => String.eqb n name.

End Drivers.

(* ================================================================== *)
(** ** Vocabulary of the properties *)
(* ================================================================== *)

Module Vocabulary.
Import Js Effects Repo Api.


(** The fixed messages as the specification lists them, by error code. *)
Definition spec_fixed_message (code : Z) : option string :=
  if code =? 11001 then Some "Duplicate key error"
  else if code =? 12000 then Some "Invalid index specification"
  else if code =? 12010 then Some "Cannot build index on a non-existing field"
  else if code =? 12102 then Some "Index key too long"
  else if code =? 12134 then Some "Index not found"
  else None.

(** The [HttpException] an execution ends with, if it ends with one. *)
Definition http_of {A} (r : Outcome A) : option Value :=
  match r with
  | Threw x => if is_HttpException x then Some x else None
  | Ok _ => None
  end.

(** The line that [handleDatabaseError] logs for a readable error. *)
Definition log_line (e : Value) : string :=
  "Database Error: " ++ toString (get_member_opt e "name") ++ " -  "
    ++ toString (js_or (get_member_opt e "message") e).

Definition log_events {S} (o : Options S) (e : Value) : list Event :=
  if errLogger o then [Logged (log_line e)] else [].

(** What every unrecognised error is turned into. *)
Definition masked : Value :=
  HttpException "Database operation failed" HttpStatus.INTERNAL_SERVER_ERROR.

(** The driver answers the first three calls of [updateById]: it opens
    [session], starts its transaction and reads [doc] under [id], leaving
    the database in state [s3]. *)
Definition reads_document {S} (o : Options S) (id : string) (s : S)
           (session : ClientSession) (doc : Value) (s3 : S) : Prop :=
  exists s1 s2,
    entityModel o _ ModelStartSession s = (Ok session, s1)
    /\ entityModel o _ (SessionStartTransaction session) s1 = (Ok tt, s2)
    /\ entityModel o _ (ModelFindById id JUndefined (Some session)) s2
       = (Ok doc, s3).

(** The trace of an update that the [try] block gave up with the exception
    [internal] right after the read: the transaction is aborted and, when
    the abort itself resolves, the session is ended and the exception is
    handed to [handleDatabaseError]. *)
Definition rejected_trace {S} (o : Options S) (id : string)
           (session : ClientSession) (s3 : S) (internal : Value)
  : list Event :=
  ([Invoked ModelStartSession;
    Invoked (SessionStartTransaction session);
    Invoked (ModelFindById id JUndefined (Some session));
    Invoked (SessionAbortTransaction session)]
   ++ match fst (entityModel o _ (SessionAbortTransaction session) s3) with
      | Ok _ => Invoked (SessionEndSession session) :: log_events o internal
      | Threw _ => []
      end)%list.

Definition rejected_outcome {S} (o : Options S) (session : ClientSession)
           (s3 : S) : Outcome Value :=
  match fst (entityModel o _ (SessionAbortTransaction session) s3) with
  | Ok _ => Threw masked
  | Threw e => Threw e
  end.

(** The update object that [updateById] hands to [findByIdAndUpdate] when
    [doc] is the document it read. *)
Definition versioned (doc update : Value) : Value :=
  JObj ClsObject
       (set_prop "__v" (add_one (get_member_opt doc "__v"))
                 (own_props update)).

(** The value an execution throws, if it throws. *)
Definition thrown {A} (r : Outcome A) : option Value :=
  match r with
  | Threw x => Some x
  | Ok _ => None
  end.

(** An optional number, absent meaning 0. *)
Definition or_zero (n : option Z) : Z :=
  match n with
  | Some x => x
  | None => 0
  end.

(** The third parameter of [findOneAndUpdate] after its default. *)
Definition options_or_default (given : option UpdateOptions) : UpdateOptions :=
  match given with
  | Some opts => opts
  | None => default_UpdateOptions
  end.

(** The second argument that [findOneAndUpdate] passes on. *)
Definition sent_update (updatedObject : Value) (opts : UpdateOptions) : Value :=
  if incVersion opts
  then JObj ClsObject
            (set_prop "$inc" (JObj ClsObject [(versionKey opts, JNum 1)])
                      (own_props updatedObject))
  else updatedObject.



(** Method call [c] ends a failure of its driver call [op] the way the
    handler ends: same thrown value, same log, and [op] is the only driver
    operation invoked. *)
Definition fails_as_handler {S R R'} (o : Options S) (c : Call R)
           (op : DriverOp R') (s : S) : Prop :=
  forall e s1,
    entityModel o R' op s = (Threw e, s1) ->
    let r := run o c s in
    let h := @handleDatabaseError S o unit e s in
    thrown (outcome r) = thrown (outcome h)
    /\ (exists x, outcome r = Threw x)
    /\ logged (events r) = logged (events h)
    /\ invoked (events r) = [op_name op].

End Vocabulary.

(* ================================================================== *)
(** ** Basic facts about the embedding *)
(* ================================================================== *)

Module Facts.
Import Js Effects Repo Api Vocabulary.

Lemma lookup_set_prop_same (k : string) (v : Value) (ps : Props) :
  lookup k (set_prop k v ps) = Some v.
Proof.
  induction ps as [|[k' x] rest IH]; simpl.
  - now rewrite String.eqb_refl.
  - destruct (String.eqb k' k) eqn:E; simpl; rewrite E; auto.
Qed.

Lemma lookup_set_prop_other (k k' : string) (v : Value) (ps : Props) :
  k' <> k -> lookup k' (set_prop k v ps) = lookup k' ps.
Proof.
  intros Hne. induction ps as [|[k0 x] rest IH]; simpl.
  - destruct (String.eqb k k') eqn:E; auto.
    apply String.eqb_eq in E. congruence.
  - destruct (String.eqb k0 k) eqn:E; simpl.
    + apply String.eqb_eq in E. subst k0.
      destruct (String.eqb k k') eqn:E'; auto.
      apply String.eqb_eq in E'. congruence.
    + destruct (String.eqb k0 k'); auto.
Qed.

Lemma get_member_nonnullish (v : Value) (k : string) :
  nullish v = false -> get_member v k = inl (get_member_opt v k).
Proof.
  destruct v; simpl; try discriminate; intros _; try reflexivity.
  unfold get_member_opt; simpl. now destruct (lookup k props).
Qed.

Lemma truthy_not_nullish (v : Value) : truthy v = true -> nullish v = false.
Proof. now destruct v. Qed.

Lemma strict_eq_num (v : Value) (n : Z) :
  strict_eq v (JNum n) = true <-> v = JNum n.
Proof.
  destruct v; simpl; split; try discriminate; intros H.
  - apply Z.eqb_eq in H. now subst.
  - injection H as ->. apply Z.eqb_refl.
Qed.

Lemma invoked_app (a b : list Event) :
  invoked (a ++ b) = (invoked a ++ invoked b)%list.
Proof.
  induction a as [|[R op|line] a IH]; simpl; auto. now rewrite IH.
Qed.

Lemma written_app (a b : list Event) :
  written (a ++ b) = (written a ++ written b)%list.
Proof.
  induction a as [|[R op|line] a IH]; simpl; auto.
  destruct op; simpl; auto. now rewrite IH.
Qed.

Lemma written_no_invocation (l : list Event) :
  invoked l = [] -> written l = [].
Proof.
  induction l as [|[R op|line] l IH]; simpl; auto. discriminate.
Qed.

(** *** The error handler *)

Section Handler.
Context {S : Type} (o : Options S).

Lemma member_nonnullish (v : Value) (k : string) (s : S) :
  nullish v = false -> member v k s = (Ok (get_member_opt v k), s, []).
Proof.
  intros H. unfold member. now rewrite (get_member_nonnullish v k H).
Qed.

Lemma translate_eq (e : Value) (s : S) :
  nullish e = false ->
  translate e s =
  let code := get_member_opt e "code" in
  if strict_eq code (JNum 11000) then
    match Object_values (get_member_opt e "keyValue") with
    | inl values =>
        (Ok ((toString (first values) ++ " already exists")%string,
             HttpStatus.BAD_REQUEST), s, [])
    | inr x => (Threw x, s, [])
    end
  else if strict_eq code (JNum 11001) then
    (Ok ("Duplicate key error", HttpStatus.BAD_REQUEST), s, [])
  else if strict_eq code (JNum 12000) then
    (Ok ("Invalid index specification", HttpStatus.BAD_REQUEST), s, [])
  else if strict_eq code (JNum 12010) then
    (Ok ("Cannot build index on a non-existing field",
         HttpStatus.BAD_REQUEST), s, [])
  else if strict_eq code (JNum 12102) then
    (Ok ("Index key too long", HttpStatus.BAD_REQUEST), s, [])
  else if strict_eq code (JNum 12134) then
    (Ok ("Index not found", HttpStatus.BAD_REQUEST), s, [])
  else
    (Ok ("Database operation failed", HttpStatus.INTERNAL_SERVER_ERROR),
     s, []).
Proof.
  intros H. unfold translate, bind. rewrite (member_nonnullish e "code" s H).
  cbv zeta.
  destruct (strict_eq (get_member_opt e "code") (JNum 11000)).
  - rewrite (member_nonnullish e "keyValue" s H).
    destruct (Object_values (get_member_opt e "keyValue")); reflexivity.
  - repeat match goal with
           | |- context [if ?b then _ else _] => destruct b
           end; reflexivity.
Qed.

Ltac split_table :=
  repeat match goal with
         | |- context [if ?b then _ else _] => destruct b
         | |- context [match Object_values ?v with _ => _ end] =>
             destruct (Object_values v)
         end.

Lemma handleDatabaseError_nonnullish {A} (e : Value) (s : S) :
  nullish e = false ->
  @handleDatabaseError S o A e s =
  (match fst (fst (translate e s)) with
   | Ok (m, st) => Threw (HttpException m st)
   | Threw x => Threw x
   end, s, log_events o e).
Proof.
  intros H. unfold handleDatabaseError, log_events, log_line, bind.
  assert (Hm : forall k, member e k s = (Ok (get_member_opt e k), s, []))
    by (intros k; now apply member_nonnullish).
  destruct (errLogger o).
  - rewrite Hm. unfold logger_error. cbv beta iota zeta.
    rewrite (translate_eq e) by exact H. cbv zeta.
    split_table; reflexivity.
  - unfold ret. cbv beta iota zeta.
    rewrite (translate_eq e) by exact H. cbv zeta.
    split_table; reflexivity.
Qed.

Lemma handleDatabaseError_nullish {A} (e : Value) (s : S) :
  nullish e = true ->
  exists msg, @handleDatabaseError S o A e s = (Threw (TypeError msg), s, []).
Proof.
  intros H.
  unfold handleDatabaseError, translate, member, lift, bind, ret, throw.
  destruct e; try discriminate; destruct (errLogger o); simpl;
    eexists; reflexivity.
Qed.

(** The handler never completes normally, never touches the driver and
    leaves the database state alone. *)
Lemma handleDatabaseError_throws {A} (e : Value) (s : S) :
  exists x l, @handleDatabaseError S o A e s = (Threw x, s, l)
              /\ invoked l = [].
Proof.
  destruct (nullish e) eqn:H.
  - destruct (@handleDatabaseError_nullish A e s H) as [msg ->].
    now exists (TypeError msg), [].
  - rewrite handleDatabaseError_nonnullish by exact H.
    exists (match fst (fst (translate e s)) with
            | Ok (m, st) => HttpException m st
            | Threw x => x
            end), (log_events o e); split.
    + destruct (fst (fst (translate e s))) as [[m st]|x]; reflexivity.
    + unfold log_events. now destruct (errLogger o).
Qed.


(** An [HttpException] has no [code], so it is translated like any
    unrecognised error. *)
Lemma handleDatabaseError_HttpException {A} (m : string) (st : Z) (s : S) :
  @handleDatabaseError S o A (HttpException m st) s
  = (Threw masked, s, log_events o (HttpException m st)).
Proof.
  rewrite handleDatabaseError_nonnullish by reflexivity.
  rewrite translate_eq by reflexivity. reflexivity.
Qed.

End Handler.

(** *** Symbolic execution of the methods *)

Ltac unfold_methods :=
  unfold run, create, createMany, find, findById, findOne, fullTextSearch,
    count, distinctValues, updateOne, updateMany, findOneAndUpdate,
    updateById, deleteOne, deleteMany, startTransaction, commitTransaction,
    abortTransaction, endTransaction, aggregate, isDatabaseConnected,
    call, fire, member, lift, try_catch, bind, invoke, await, ret, throw.

(** Case analysis on every answer of the driver [o], on the handler and on
    the tests of the method body. *)
Ltac crunch o :=
  repeat first
    [ progress cbv beta iota zeta
    | match goal with
      | |- context [entityModel o ?R ?op ?s] =>
          destruct (entityModel o R op s) as [[? | ?] ?]
      | |- context [@handleDatabaseError ?S o ?A ?e ?s] =>
          let x := fresh "x" in
          let l := fresh "l" in
          let H := fresh "Hl" in
          destruct (@handleDatabaseError_throws S o A e s) as (x & l & -> & H)
      | |- context [match get_member ?v ?k with _ => _ end] =>
          destruct (get_member v k)
      | |- context [if ?b then _ else _] => destruct b
      end ].


Ltac forget_logs :=
  repeat match goal with
         | H : invoked _ = [] |- _ => rewrite (written_no_invocation _ H)
         end.

(** *** [updateById] path by path *)

Section UpdateById.
Context {S : Type} (o : Options S).
Variables (id : string) (update : Value) (s : S).

Lemma updateById_conflict (session : ClientSession) (doc : Value) (s3 : S) :
  reads_document o id s session doc s3 ->
  truthy doc = true ->
  truthy (get_member_opt update "__v") = true ->
  strict_eq (get_member_opt doc "__v") (get_member_opt update "__v") = false ->
  let r := run o (UpdateById id update) s in
  outcome r = rejected_outcome o session s3
  /\ events r = rejected_trace o id session s3
                  (HttpException "Concurrency conflict" HttpStatus.CONFLICT).
Proof.
  intros (s1 & s2 & H1 & H2 & H3) Hdoc Hsup Hneq r. subst r.
  assert (Hu : nullish update = false).
  { destruct update; try reflexivity; discriminate Hsup. }
  unfold rejected_outcome, rejected_trace.
  unfold_methods.
  rewrite H1; cbv beta iota zeta. rewrite H2; cbv beta iota zeta.
  rewrite H3; cbv beta iota zeta. rewrite Hdoc; cbv beta iota zeta.
  cbn [negb]. cbv beta iota zeta.
  rewrite (get_member_nonnullish update "__v" Hu).
  rewrite (get_member_nonnullish doc "__v" (truthy_not_nullish doc Hdoc)).
  cbv beta iota zeta. rewrite Hsup. cbv beta iota zeta.
  rewrite Hneq. cbn [negb]. cbv beta iota zeta.
  destruct (entityModel o unit (SessionAbortTransaction session) s3)
    as [[[]|e] s4]; cbv beta iota zeta; cbn [fst].
  - destruct (entityModel o unit (SessionEndSession session) s4) as [r5 s5].
    cbv beta iota zeta.
    rewrite handleDatabaseError_HttpException. split; reflexivity.
  - split; reflexivity.
Qed.


Lemma updateById_proceeds (session : ClientSession) (doc : Value) (s3 : S) :
  reads_document o id s session doc s3 ->
  truthy doc = true ->
  nullish update = false ->
  truthy (get_member_opt update "__v") = false
  \/ strict_eq (get_member_opt doc "__v") (get_member_opt update "__v") = true ->
  let r := run o (UpdateById id update) s in
  (exists tail,
      events r =
      ([Invoked ModelStartSession;
        Invoked (SessionStartTransaction session);
        Invoked (ModelFindById id JUndefined (Some session));
        Invoked (ModelFindByIdAndUpdate id (versioned doc update)
                   (JObj ClsObject [("new", JBool true)]) (Some session))]
       ++ tail)%list)
  /\ written (events r) = [versioned doc update].
Proof.
  intros (s1 & s2 & H1 & H2 & H3) Hdoc Hu Hgo r. subst r.
  unfold versioned. unfold_methods.
  rewrite H1; cbv beta iota zeta. rewrite H2; cbv beta iota zeta.
  rewrite H3; cbv beta iota zeta. rewrite Hdoc; cbv beta iota zeta.
  cbn [negb]. cbv beta iota zeta.
  rewrite (get_member_nonnullish update "__v" Hu).
  rewrite (get_member_nonnullish doc "__v" (truthy_not_nullish doc Hdoc)).
  cbv beta iota zeta.
  assert (Hpass :
    (if truthy (get_member_opt update "__v")
     then if negb (strict_eq (get_member_opt doc "__v")
                             (get_member_opt update "__v"))
          then false else true
     else true) = true).
  { destruct Hgo as [-> | ->]; [reflexivity|].
    now destruct (truthy (get_member_opt update "__v")). }
  destruct (truthy (get_member_opt update "__v"));
    [ destruct (strict_eq (get_member_opt doc "__v")
                          (get_member_opt update "__v"));
      [ | discriminate Hpass ] | ];
    cbn [negb]; cbv beta iota zeta;
    crunch o; unfold events; cbn [snd app];
    (split; [ eexists; reflexivity | ]);
    repeat rewrite written_app; cbn [written];
    forget_logs; reflexivity.
Qed.

Lemma updateById_success_path (result : Value) :
  outcome (run o (UpdateById id update) s) = Ok result ->
  exists session doc s3,
    reads_document o id s session doc s3
    /\ truthy doc = true
    /\ nullish update = false
    /\ (truthy (get_member_opt update "__v") = false
        \/ strict_eq (get_member_opt doc "__v") (get_member_opt update "__v")
           = true).
Proof.
  unfold reads_document. unfold_methods.
  destruct (entityModel o _ ModelStartSession s) as [[session|e] s1] eqn:H1;
    cbv beta iota zeta; [ | discriminate ].
  destruct (entityModel o _ (SessionStartTransaction session) s1)
    as [[[]|e] s2] eqn:H2; cbv beta iota zeta; [ | discriminate ].
  destruct (entityModel o _ (ModelFindById id JUndefined (Some session)) s2)
    as [[doc|e] s3] eqn:H3; cbv beta iota zeta.
  2:{ crunch o; discriminate. }
  destruct (truthy doc) eqn:Hdoc; cbn [negb]; cbv beta iota zeta.
  2:{ crunch o; discriminate. }
  destruct (nullish update) eqn:Hu.
  { destruct update; try discriminate Hu; cbn [get_member];
      crunch o; discriminate. }
  rewrite (get_member_nonnullish update "__v" Hu).
  rewrite (get_member_nonnullish doc "__v" (truthy_not_nullish doc Hdoc)).
  cbv beta iota zeta.
  destruct (truthy (get_member_opt update "__v")) eqn:Hsup;
    cbv beta iota zeta.
  - destruct (strict_eq (get_member_opt doc "__v")
                        (get_member_opt update "__v")) eqn:Heq;
      cbn [negb]; cbv beta iota zeta.
    + intros _. exists session, doc, s3. repeat split; eauto.
    + crunch o; discriminate.
  - intros _. exists session, doc, s3. repeat split; eauto.
Qed.

Lemma updateById_written (w : Value) :
  In w (written (events (run o (UpdateById id update) s))) ->
  exists stored,
    w = JObj ClsObject (set_prop "__v" (add_one stored) (own_props update)).
Proof.
  unfold_methods; crunch o; unfold events; cbn [snd app written];
    repeat rewrite written_app; cbn [written app];
    forget_logs;
    cbn [In]; intros Hin; try tauto;
    destruct Hin as [<- | []]; eexists; reflexivity.
Qed.

End UpdateById.

(** [fullTextSearch] leaves its [try] block with the promise still pending,
    so its handler never runs: the method ends as the driver call does. *)
Lemma fullTextSearch_returns_promise {S} (o : Options S)
      (searchText searchField : string) (s : S) :
  let op :=
    ModelFind (JObj ClsObject
                    [(searchField,
                      JObj ClsObject [("$regex", JStr searchText);
                                      ("$options", JStr "i")])])
              JUndefined None in
  run o (FullTextSearch searchText searchField) s
  = (fst (entityModel o _ op s), snd (entityModel o _ op s), [Invoked op]).
Proof.
  intros op. subst op. unfold_methods.
  destruct (entityModel o _ _ s) as [[a|e] s1]; reflexivity.
Qed.

Lemma written_rejected_trace {S} (o : Options S) (id : string)
      (session : ClientSession) (s3 : S) (m : string) (st : Z) :
  written (rejected_trace o id session s3 (HttpException m st)) = [].
Proof.
  unfold rejected_trace, log_events.
  destruct (fst (entityModel o unit (SessionAbortTransaction session) s3));
    destruct (errLogger o); reflexivity.
Qed.

Lemma rejected_outcome_throws {S} (o : Options S) (session : ClientSession)
      (s3 : S) :
  exists x, rejected_outcome o session s3 = Threw x.
Proof.
  unfold rejected_outcome.
  destruct (fst (entityModel o unit (SessionAbortTransaction session) s3));
    eexists; reflexivity.
Qed.


End Facts.

(* ================================================================== *)
(** ** Properties of the repository *)
(* ================================================================== *)

Import Js Effects Repo Api Drivers Vocabulary Facts.

(** *** Error translation *)




(** C2 (as amended).  For an error value other than [undefined] and [null]:
    the codes 11001, 12000, 12010, 12102 and 12134 give BAD_REQUEST with the
    fixed message of the code; code 11000 gives BAD_REQUEST with the first
    value of the error's [keyValue] followed by " already exists"; every
    other code, and no code, gives INTERNAL_SERVER_ERROR with
    "Database operation failed". *)
Theorem C2_error_code_table :
  forall (S : Type) (o : Options S) (A : Type) (e : Value) (s : S),
    nullish e = false ->
    let code := get_member_opt e "code" in
    let thrown := outcome (@handleDatabaseError S o A e s) in
    (forall n m, code = JNum n -> spec_fixed_message n = Some m ->
                 thrown = Threw (HttpException m HttpStatus.BAD_REQUEST))
    /\ (code = JNum 11000 ->
        forall values,
          Object_values (get_member_opt e "keyValue") = inl values ->
          thrown = Threw (HttpException
                            (toString (first values) ++ " already exists")
                            HttpStatus.BAD_REQUEST))
    /\ ((forall n, code = JNum n ->
                   n <> 11000 /\ spec_fixed_message n = None) ->
        thrown = Threw (HttpException "Database operation failed"
                                      HttpStatus.INTERNAL_SERVER_ERROR)).
Proof.
  intros S o A e s Hn code thrown. subst thrown.
  rewrite handleDatabaseError_nonnullish by exact Hn.
  rewrite translate_eq by exact Hn. cbv zeta. fold code.
  unfold outcome. cbn [fst].
  repeat split.
  - intros n m Hc Hm. rewrite Hc. unfold spec_fixed_message in Hm.
    simpl strict_eq.
    destruct (n =? 11000) eqn:E0.
    { apply Z.eqb_eq in E0. subst n. discriminate Hm. }
    repeat match type of Hm with
           | (if ?b then _ else _) = _ => destruct b
           end; try discriminate; injection Hm as <-; reflexivity.
  - intros Hc values Hv. rewrite Hc, Hv. reflexivity.
  - intros Hother.
    assert (Hno : forall n, strict_eq code (JNum n) = true ->
                            n <> 11000 /\ spec_fixed_message n = None).
    { intros n Hs. apply strict_eq_num in Hs. now apply Hother. }
    destruct (strict_eq code (JNum 11000)) eqn:E0.
    { destruct (Hno _ E0) as [Hx _]. now elim Hx. }
    repeat match goal with
           | |- context [if strict_eq code (JNum ?n) then _ else _] =>
               let E := fresh "E" in
               destruct (strict_eq code (JNum n)) eqn:E;
               [ destruct (Hno _ E) as [_ Hx]; discriminate Hx | ]
           end.
    reflexivity.
Qed.

(** One error per row of the table: a fixed code, a duplicate key and an
    error without code. *)
Lemma C2_error_code_table_witness :
  let o := opts_with (rejecting JNull) false in
  outcome (@handleDatabaseError unit o unit
             (JObj ClsError [("code", JNum 12102)]) tt)
  = Threw (HttpException "Index key too long" HttpStatus.BAD_REQUEST)
  /\ outcome (@handleDatabaseError unit o unit
                (duplicate_key "email" (JStr "a@b.c")) tt)
     = Threw (HttpException "a@b.c already exists" HttpStatus.BAD_REQUEST)
  /\ outcome (@handleDatabaseError unit o unit network_error tt)
     = Threw (HttpException "Database operation failed"
                            HttpStatus.INTERNAL_SERVER_ERROR).
Proof.
  intros o. split; [ | split ].
  - apply (proj1 (C2_error_code_table unit o unit
                    (JObj ClsError [("code", JNum 12102)]) tt eq_refl)
             12102 "Index key too long"); reflexivity.
  - apply (proj1 (proj2 (C2_error_code_table unit o unit
                           (duplicate_key "email" (JStr "a@b.c")) tt
                           eq_refl))
             eq_refl [JStr "a@b.c"]); reflexivity.
  - apply (proj2 (proj2 (C2_error_code_table unit o unit network_error tt
                           eq_refl))).
    intros n Hc. discriminate Hc.
Defined.

(** C2 as stated fails for code 11000: two duplicate key errors get two
    different messages, so no message is fixed for that code. *)
Lemma C2_duplicate_key_message_varies :
  let o := opts_with (rejecting JNull) false in
  let e1 := duplicate_key "email" (JStr "a@b.c") in
  let e2 := duplicate_key "email" (JStr "x@y.z") in
  get_member e1 "code" = inl (JNum 11000)
  /\ get_member e2 "code" = inl (JNum 11000)
  /\ ~ exists msg,
         outcome (@handleDatabaseError unit o unit e1 tt)
         = Threw (HttpException msg HttpStatus.BAD_REQUEST)
         /\ outcome (@handleDatabaseError unit o unit e2 tt)
            = Threw (HttpException msg HttpStatus.BAD_REQUEST).
Proof.
  intros o e1 e2. split; [ reflexivity | split; [ reflexivity | ] ].
  intros [msg [H1 H2]].
  vm_compute in H1, H2.
  injection H1 as H1. injection H2 as H2. congruence.
Qed.

(** C9 (as amended).  Turning [errLogger] on or off changes neither the
    [HttpException] that [handleDatabaseError] throws, nor the database
    state, nor the driver calls (there are none).  For an error other than
    [undefined] and [null] the thrown value is the same altogether, and the
    flag decides only whether the one log line is written. *)
Theorem C9_logging_is_inert :
  forall (S : Type) (d : Driver S) (A : Type) (e : Value) (s : S),
    let quiet_run := @handleDatabaseError S (opts_with d false) A e s in
    let logged_run := @handleDatabaseError S (opts_with d true) A e s in
    http_of (outcome logged_run) = http_of (outcome quiet_run)
    /\ final logged_run = final quiet_run
    /\ invoked (events logged_run) = invoked (events quiet_run)
    /\ logged (events quiet_run) = []
    /\ (nullish e = false ->
        outcome logged_run = outcome quiet_run
        /\ logged (events logged_run) = [log_line e]).
Proof.
  intros S d A e s quiet_run logged_run. subst quiet_run logged_run.
  destruct (nullish e) eqn:Hn.
  - destruct (@handleDatabaseError_nullish S (opts_with d false) A e s Hn)
      as [m1 ->].
    destruct (@handleDatabaseError_nullish S (opts_with d true) A e s Hn)
      as [m2 ->].
    unfold outcome, final, events; simpl. repeat split; auto; discriminate.
  - rewrite !handleDatabaseError_nonnullish by exact Hn.
    rewrite !translate_eq by exact Hn.
    unfold outcome, final, events, log_events; simpl.
    repeat split; auto.
Qed.

(** A duplicate key error, logged and not. *)
Lemma C9_logging_is_inert_witness :
  let e := duplicate_key "email" (JStr "a@b.c") in
  let quiet_run := @handleDatabaseError unit (opts_with (rejecting e) false)
                                        unit e tt in
  let logged_run := @handleDatabaseError unit (opts_with (rejecting e) true)
                                         unit e tt in
  outcome logged_run = outcome quiet_run
  /\ logged (events logged_run) = [log_line e].
Proof.
  intros e.
  apply (proj2 (proj2 (proj2 (proj2
           (C9_logging_is_inert unit (rejecting e) unit e tt))))).
  reflexivity.
Defined.

(** C9 as stated fails for [undefined]: with the flag on the read of
    [error.message] throws, with it off the read of [error.code] does, so
    the two runs throw different [TypeError]s, and the flag writes no log
    line. *)
Lemma C9_flag_changes_error_for_undefined :
  let quiet_run := @handleDatabaseError unit
                     (opts_with (rejecting JUndefined) false) unit
                     JUndefined tt in
  let logged_run := @handleDatabaseError unit
                      (opts_with (rejecting JUndefined) true) unit
                      JUndefined tt in
  outcome logged_run <> outcome quiet_run
  /\ logged (events logged_run) = [].
Proof.
  intros quiet_run logged_run. split; [ | reflexivity ].
  intros H. vm_compute in H. discriminate H.
Qed.


(** *** The update by id *)

(** C3 (as amended).  Once the session is open, the transaction started and
    a document read inside it, a truthy [update.__v] that differs from the
    stored [__v] makes [updateById] give up: the next driver call is
    [abortTransaction], nothing is written, and the method throws. *)
Theorem C3_conflict_when_version_supplied :
  forall (S : Type) (o : Options S) (id : string) (update : Value) (s : S)
         (session : ClientSession) (doc : Value) (s3 : S),
    reads_document o id s session doc s3 ->
    truthy doc = true ->
    truthy (get_member_opt update "__v") = true ->
    strict_eq (get_member_opt doc "__v") (get_member_opt update "__v")
    = false ->
    let r := run o (UpdateById id update) s in
    events r = rejected_trace o id session s3
                 (HttpException "Concurrency conflict" HttpStatus.CONFLICT)
    /\ written (events r) = []
    /\ outcome r = rejected_outcome o session s3
    /\ exists x, outcome r = Threw x.
Proof.
  intros S o id update s session doc s3 Hread Hdoc Hsup Hneq r.
  destruct (updateById_conflict o id update s session doc s3
              Hread Hdoc Hsup Hneq) as [Hout Hev].
  fold r in Hout, Hev. rewrite Hev, Hout.
  repeat split.
  - apply written_rejected_trace.
  - apply rejected_outcome_throws.
Qed.

(** Stored version 3, supplied version 2. *)
Lemma C3_conflict_when_version_supplied_witness :
  let o := opts_with (holding (JObj ClsObject [("__v", JNum 3)]) false JNull)
                     false in
  let update := JObj ClsObject [("name", JStr "x"); ("__v", JNum 2)] in
  let r := run o (UpdateById "42" update) tt in
  events r = [Invoked ModelStartSession;
              Invoked (SessionStartTransaction 7%nat);
              Invoked (ModelFindById "42" JUndefined (Some 7%nat));
              Invoked (SessionAbortTransaction 7%nat);
              Invoked (SessionEndSession 7%nat)]
  /\ written (events r) = []
  /\ outcome r = Threw masked
  /\ exists x, outcome r = Threw x.
Proof.
  intros o update.
  apply (C3_conflict_when_version_supplied unit o "42" update tt 7%nat
           (JObj ClsObject [("__v", JNum 3)]) tt).
  - exists tt, tt. repeat split.
  - reflexivity.
  - reflexivity.
  - reflexivity.
Defined.

(** C3 as stated fails when the supplied version is falsy: the stored
    version is 3, the caller supplies 0, the two differ, and the update is
    written and committed all the same. *)
Lemma C3_differing_version_zero_is_written :
  let doc := JObj ClsObject [("__v", JNum 3)] in
  let update := JObj ClsObject [("name", JStr "x"); ("__v", JNum 0)] in
  let r := run (opts_with (holding doc false JNull) false)
               (UpdateById "42" update) tt in
  strict_eq (get_member_opt doc "__v") (get_member_opt update "__v") = false
  /\ outcome r = Ok (JObj ClsObject [("name", JStr "x"); ("__v", JNum 4)])
  /\ invoked (events r)
     = ["startSession"; "startTransaction"; "findById"; "findByIdAndUpdate";
        "commitTransaction"; "endSession"].
Proof. repeat split; reflexivity. Qed.




(** C5.  When [update.__v] is falsy (absent, 0, ...), the call that follows
    the read is the write, whatever version the document has. *)
Theorem C5_falsy_version_skips_check :
  forall (S : Type) (o : Options S) (id : string) (update : Value) (s : S)
         (session : ClientSession) (doc : Value) (s3 : S),
    reads_document o id s session doc s3 ->
    truthy doc = true ->
    nullish update = false ->
    truthy (get_member_opt update "__v") = false ->
    let r := run o (UpdateById id update) s in
    (exists tail,
        events r =
        ([Invoked ModelStartSession;
          Invoked (SessionStartTransaction session);
          Invoked (ModelFindById id JUndefined (Some session));
          Invoked (ModelFindByIdAndUpdate id (versioned doc update)
                     (JObj ClsObject [("new", JBool true)]) (Some session))]
         ++ tail)%list)
    /\ written (events r) = [versioned doc update].
Proof.
  intros S o id update s session doc s3 Hread Hdoc Hu Hfalsy.
  apply (updateById_proceeds o id update s session doc s3 Hread Hdoc Hu).
  now left.
Qed.

(** An update without [__v] against a document at version 3. *)
Lemma C5_falsy_version_skips_check_witness :
  let doc := JObj ClsObject [("__v", JNum 3)] in
  let update := JObj ClsObject [("name", JStr "x")] in
  let r := run (opts_with (holding doc false JNull) false)
               (UpdateById "42" update) tt in
  (exists tail,
      events r =
      ([Invoked ModelStartSession;
        Invoked (SessionStartTransaction 7%nat);
        Invoked (ModelFindById "42" JUndefined (Some 7%nat));
        Invoked (ModelFindByIdAndUpdate "42" (versioned doc update)
                   (JObj ClsObject [("new", JBool true)]) (Some 7%nat))]
       ++ tail)%list)
  /\ written (events r) = [versioned doc update].
Proof.
  intros doc update.
  apply (C5_falsy_version_skips_check unit
           (opts_with (holding doc false JNull) false) "42" update tt
           7%nat doc tt).
  - exists tt, tt. repeat split.
  - reflexivity.
  - reflexivity.
  - reflexivity.
Defined.

(** C6 at its failing input.  The document is missing and
    [abortTransaction] rejects: [updateById] ends with the abort's error and
    without any call to [endSession].  The public [abortTransaction] method
    ends the session in the same situation. *)
Theorem C6_session_left_open_when_abort_rejects :
  let o := opts_with (holding JNull true network_error) false in
  let r := run o (UpdateById "42" (JObj ClsObject [("name", JStr "x")])) tt in
  invoked (events r)
  = ["startSession"; "startTransaction"; "findById"; "abortTransaction"]
  /\ outcome r = Threw network_error
  /\ invoked (events (run o (AbortTransaction 7%nat) tt))
     = ["abortTransaction"; "endSession"]
  /\ outcome (run o (AbortTransaction 7%nat) tt) = Threw masked.
Proof. repeat split; reflexivity. Qed.

(** C7.  A successful [updateById] hands exactly one update object to
    [findByIdAndUpdate]; its [__v] is the [__v] of the document read plus
    one, whatever [__v] the caller's update had, and its other fields are
    the caller's. *)
Theorem C7_written_version_is_stored_plus_one :
  forall (S : Type) (o : Options S) (id : string) (update : Value) (s : S)
         (result : Value),
    outcome (run o (UpdateById id update) s) = Ok result ->
    exists session doc s3 sent,
      reads_document o id s session doc s3
      /\ written (events (run o (UpdateById id update) s)) = [sent]
      /\ get_member sent "__v" = inl (add_one (get_member_opt doc "__v"))
      /\ (forall n, get_member_opt doc "__v" = JNum n ->
                    get_member sent "__v" = inl (JNum (n + 1)))
      /\ (forall k, k <> "__v" ->
                    lookup k (own_props sent) = lookup k (own_props update)).
Proof.
  intros S o id update s result Hok.
  destruct (updateById_success_path o id update s result Hok)
    as (session & doc & s3 & Hread & Hdoc & Hu & Hgo).
  destruct (updateById_proceeds o id update s session doc s3
              Hread Hdoc Hu Hgo) as [_ Hw].
  exists session, doc, s3, (versioned doc update).
  assert (Hv : get_member (versioned doc update) "__v"
               = inl (add_one (get_member_opt doc "__v"))).
  { unfold versioned. cbn [get_member].
    now rewrite lookup_set_prop_same. }
  repeat split; auto.
  - intros n Hn. rewrite Hv, Hn. reflexivity.
  - intros k Hk. unfold versioned. cbn [own_props].
    now apply lookup_set_prop_other.
Qed.

(** The caller supplies the current version 3 inside the update. *)
Lemma C7_written_version_is_stored_plus_one_witness :
  let doc := JObj ClsObject [("__v", JNum 3)] in
  let update := JObj ClsObject [("__v", JNum 3); ("name", JStr "x")] in
  let o := opts_with (holding doc false JNull) false in
  exists session doc' s3 sent,
    reads_document o "42" tt session doc' s3
    /\ written (events (run o (UpdateById "42" update) tt)) = [sent]
    /\ get_member sent "__v" = inl (add_one (get_member_opt doc' "__v"))
    /\ (forall n, get_member_opt doc' "__v" = JNum n ->
                  get_member sent "__v" = inl (JNum (n + 1)))
    /\ (forall k, k <> "__v" ->
                  lookup k (own_props sent) = lookup k (own_props update)).
Proof.
  intros doc update o.
  apply (C7_written_version_is_stored_plus_one unit o "42" update tt
           (JObj ClsObject [("__v", JNum 4); ("name", JStr "x")])).
  reflexivity.
Defined.

(** *** What reaches the driver *)

(** C8 (as amended).  Filters and projections reach the driver as the
    caller gave them, and so do the update objects of [updateOne] and
    [updateMany].  [findOneAndUpdate] forwards the update object itself when
    [incVersion] is off; when it is on, the object sent has its [$inc] set
    to the increment of [versionKey] and every other field as the caller
    gave it.  [updateById] sends an object that differs from the caller's in
    [__v] only. *)
Theorem C8_arguments_forwarded :
  forall (S : Type) (o : Options S) (s : S),
    (forall f p opts,
        exists a b,
          events (run o (Find f p opts) s)
          = [Invoked (ModelFind f p (Some (a, b)))])
    /\ (forall f p,
           events (run o (FindOne f p) s) = [Invoked (ModelFindOne f p)])
    /\ (forall id p,
           hd_error (events (run o (FindById id p) s))
           = Some (Invoked (ModelFindById id p None)))
    /\ (forall f,
           hd_error (events (run o (Count f) s))
           = Some (Invoked (ModelCountDocuments f)))
    /\ (forall field f,
           hd_error (events (run o (DistinctValues field f) s))
           = Some (Invoked (ModelDistinct field f)))
    /\ (forall f u,
           hd_error (events (run o (UpdateOne f u) s))
           = Some (Invoked (ModelUpdateOne f u)))
    /\ (forall f u,
           hd_error (events (run o (UpdateMany f u) s))
           = Some (Invoked (ModelUpdateMany f u)))
    /\ (forall f,
           hd_error (events (run o (DeleteOne f) s))
           = Some (Invoked (ModelDeleteOne f)))
    /\ (forall f,
           hd_error (events (run o (DeleteMany f) s))
           = Some (Invoked (ModelDeleteMany f)))
    /\ (forall f u given,
           let opts := match given with
                       | Some opts => opts
                       | None => default_UpdateOptions
                       end in
           exists sent,
             hd_error (events (run o (FindOneAndUpdate f u given) s))
             = Some (Invoked
                       (ModelFindOneAndUpdate
                          f sent
                          (JObj ClsObject [("new", JBool true);
                                           ("upsert", JBool (upsert opts))])))
             /\ (incVersion opts = false -> sent = u)
             /\ (incVersion opts = true ->
                 get_member sent "$inc"
                 = inl (JObj ClsObject [(versionKey opts, JNum 1)])
                 /\ forall k, k <> "$inc" ->
                              lookup k (own_props sent)
                              = lookup k (own_props u)))
    /\ (forall id u sent,
           In sent (written (events (run o (UpdateById id u) s))) ->
           forall k, k <> "__v" ->
                     lookup k (own_props sent) = lookup k (own_props u)).
Proof.
  intros S o s.
  repeat match goal with |- _ /\ _ => split end.
  - intros f p opts. unfold_methods.
    destruct (entityModel o _ _ s) as [r s1]. cbv beta iota zeta.
    destruct r; unfold events; cbn [snd app]; eexists; eexists; reflexivity.
  - intros f p. unfold_methods.
    destruct (entityModel o _ _ s) as [r s1]. cbv beta iota zeta.
    destruct r; reflexivity.
  - intros id p. unfold_methods. crunch o; reflexivity.
  - intros f. unfold_methods. crunch o; reflexivity.
  - intros field f. unfold_methods. crunch o; reflexivity.
  - intros f u. unfold_methods. crunch o; reflexivity.
  - intros f u. unfold_methods. crunch o; reflexivity.
  - intros f. unfold_methods. crunch o; reflexivity.
  - intros f. unfold_methods. crunch o; reflexivity.
  - intros f u given opts.
    exists (if incVersion opts
            then JObj ClsObject
                      (set_prop "$inc"
                         (JObj ClsObject [(versionKey opts, JNum 1)])
                         (own_props u))
            else u).
    split; [ | split ].
    + unfold_methods. cbv zeta. fold opts.
      destruct (entityModel o _ _ s) as [[a|e] s1]; cbv beta iota zeta;
        [ reflexivity | ].
      destruct (@handleDatabaseError_throws S o Value e s1)
        as (x & l & -> & _). reflexivity.
    + intros ->. reflexivity.
    + intros ->. split.
      * cbn [get_member]. now rewrite lookup_set_prop_same.
      * intros k Hk. cbn [own_props]. now apply lookup_set_prop_other.
  - intros id u sent Hin k Hk.
    destruct (updateById_written o id u s sent Hin) as [stored ->].
    cbn [own_props]. now apply lookup_set_prop_other.
Qed.

(** An update by id: the [name] that reaches the driver is the caller's. *)
Lemma C8_arguments_forwarded_witness :
  let doc := JObj ClsObject [("__v", JNum 3)] in
  let update := JObj ClsObject [("name", JStr "x"); ("__v", JNum 3)] in
  let sent := JObj ClsObject [("name", JStr "x"); ("__v", JNum 4)] in
  lookup "name" (own_props sent) = lookup "name" (own_props update).
Proof.
  intros doc update sent.
  apply (proj2 (proj2 (proj2 (proj2 (proj2 (proj2 (proj2 (proj2 (proj2
           (proj2 (C8_arguments_forwarded unit
                     (opts_with (holding doc false JNull) false) tt))
           ))))))))
           "42" update sent).
  - left. reflexivity.
  - discriminate.
Defined.

(** C8 as stated fails for [findOneAndUpdate] with [incVersion]: the
    caller's [$inc] of [views] does not reach the driver, the version
    increment has taken its place. *)
Lemma C8_caller_inc_is_replaced :
  let update := JObj ClsObject
                  [("$inc", JObj ClsObject [("views", JNum 1)])] in
  let opts := {| versionKey := "__v"; incVersion := true; upsert := false |} in
  let filter := JObj ClsObject [("slug", JStr "a")] in
  events (run (opts_with (holding JNull false JNull) false)
              (FindOneAndUpdate filter update (Some opts)) tt)
  = [Invoked
       (ModelFindOneAndUpdate
          filter
          (JObj ClsObject [("$inc", JObj ClsObject [("__v", JNum 1)])])
          (JObj ClsObject [("new", JBool true); ("upsert", JBool false)]))]
  /\ get_member update "$inc"
     <> get_member
          (JObj ClsObject [("$inc", JObj ClsObject [("__v", JNum 1)])])
          "$inc".
Proof.
  intros update opts filter. split; [ reflexivity | ].
  cbn. intros H. discriminate H.
Qed.

(* ================================================================== *)
(** ** Further facts: logging, results and the transaction paths *)
(* ================================================================== *)

Module PathFacts.
Import Js Effects Repo Api Vocabulary Facts.

(** *** The handler, in more detail *)

(** The handler logs nothing, or the one line of a readable error when
    [errLogger] is on. *)
Lemma handleDatabaseError_events {S A} (o : Options S) (e : Value) (s : S) :
  exists x l,
    @handleDatabaseError S o A e s = (Threw x, s, l)
    /\ (l = [] \/ (errLogger o = true /\ nullish e = false
                   /\ l = [Logged (log_line e)])).
Proof.
  destruct (nullish e) eqn:H.
  - destruct (@handleDatabaseError_nullish S o A e s H) as [msg ->].
    exists (TypeError msg), []. auto.
  - rewrite handleDatabaseError_nonnullish by exact H.
    exists (match fst (fst (@translate S e s)) with
            | Ok (m, st) => HttpException m st
            | Threw x => x
            end), (log_events o e); split.
    + destruct (fst (fst (@translate S e s))) as [[m st]|x]; reflexivity.
    + unfold log_events. destruct (errLogger o); auto.
Qed.

Lemma handleDatabaseError_nullish_eq {S A} (o : Options S) (e : Value) (s : S) :
  nullish e = true ->
  @handleDatabaseError S o A e s
  = (Threw (TypeError ("Cannot read properties of " ++ toString e
                         ++ " (reading '"
                         ++ (if errLogger o then "message" else "code")
                         ++ "')")), s, []).
Proof.
  intros H.
  unfold handleDatabaseError, translate, member, lift, bind, ret, throw.
  destruct e; try discriminate; destruct (errLogger o); reflexivity.
Qed.

Lemma translate_state {S} (e : Value) (s s' : S) :
  nullish e = false ->
  fst (fst (@translate S e s)) = fst (fst (@translate S e s')).
Proof.
  intros H. rewrite !translate_eq by exact H. cbv zeta.
  repeat match goal with
         | |- context [if ?b then _ else _] => destruct b
         | |- context [match Object_values ?v with _ => _ end] =>
             destruct (Object_values v)
         end; reflexivity.
Qed.

(** What the handler throws and logs depends neither on the database state
    nor on the result type of the method it is called from. *)
Lemma handleDatabaseError_thrown {S A B} (o : Options S) (e : Value)
      (s s' : S) :
  thrown (outcome (@handleDatabaseError S o A e s))
  = thrown (outcome (@handleDatabaseError S o B e s'))
  /\ events (@handleDatabaseError S o A e s)
     = events (@handleDatabaseError S o B e s').
Proof.
  destruct (nullish e) eqn:H.
  - rewrite !handleDatabaseError_nullish_eq by exact H. split; reflexivity.
  - rewrite !handleDatabaseError_nonnullish by exact H.
    rewrite (translate_state e s s' H).
    unfold outcome, events; cbn [fst snd].
    destruct (fst (fst (@translate S e s'))) as [[m st]|x]; split; reflexivity.
Qed.

Lemma handleDatabaseError_TypeError {S A} (o : Options S) (msg : string)
      (s : S) :
  @handleDatabaseError S o A (TypeError msg) s
  = (Threw masked, s, log_events o (TypeError msg)).
Proof.
  rewrite handleDatabaseError_nonnullish by reflexivity.
  rewrite translate_eq by reflexivity. reflexivity.
Qed.

(** *** Values *)

Lemma num_or_some (n : Z) : num_or (Some n) 0 = n.
Proof.
  unfold num_or. destruct (n =? 0) eqn:E; auto.
  apply Z.eqb_eq in E. now subst.
Qed.

Lemma num_or_zero (n : option Z) : num_or n 0 = or_zero n.
Proof. destruct n; [apply num_or_some | reflexivity]. Qed.

Lemma at_least_one_iff (n : Z) (b : bool) :
  (n >=? 1) = b <-> (b = true <-> 1 <= n).
Proof.
  rewrite <- (Z.geb_le n 1).
  destruct (n >=? 1); destruct b; intuition congruence.
Qed.

Lemma strict_eq_sound (a b : Value) : strict_eq a b = true -> a = b.
Proof.
  destruct a, b; simpl; try discriminate; intros H; try reflexivity.
  - apply Bool.eqb_prop in H. now subst.
  - apply Z.eqb_eq in H. now subst.
  - apply String.eqb_eq in H. now subst.
Qed.

Lemma truthy_not_undefined (v : Value) :
  truthy v = true -> strict_eq JUndefined v = false.
Proof. now destruct v. Qed.

(** *** Symbolic execution, with the log kept *)

Ltac crunch_logs o :=
  repeat first
    [ progress cbv beta iota zeta
    | match goal with
      | |- context [entityModel o ?R ?op ?s] =>
          destruct (entityModel o R op s) as [[? | ?] ?]
      | |- context [@handleDatabaseError ?S o ?A ?e ?s] =>
          let x := fresh "x" in
          let l := fresh "l" in
          let H := fresh "Hl" in
          destruct (@handleDatabaseError_events S A o e s)
            as (x & l & -> & [-> | (H & _ & ->)])
      | |- context [match get_member ?v ?k with _ => _ end] =>
          destruct (get_member v k)
      | |- context [if ?b then _ else _] => destruct b
      end ].

(** As [crunch], for a driver whose [abortTransaction] always resolves. *)
Ltac crunch_aborting o Habort :=
  repeat first
    [ progress cbv beta iota zeta
    | match goal with
      | |- context [entityModel o unit (SessionAbortTransaction ?sess) ?s] =>
          let sx := fresh "sx" in
          destruct (Habort sess s) as [sx ->]
      | |- context [entityModel o ?R ?op ?s] =>
          destruct (entityModel o R op s) as [[? | ?] ?]
      | |- context [@handleDatabaseError ?S o ?A ?e ?s] =>
          let x := fresh "x" in
          let l := fresh "l" in
          let H := fresh "Hl" in
          destruct (@handleDatabaseError_throws S o A e s) as (x & l & -> & H)
      | |- context [match get_member ?v ?k with _ => _ end] =>
          destruct (get_member v k)
      | |- context [if ?b then _ else _] => destruct b
      end ].

Lemma silent_without_logger :
  forall (S : Type) (o : Options S) (R : Type) (c : Call R) (s : S),
    errLogger o = false -> logged (events (run o c s)) = [].
Proof.
  intros S o R c s Hoff.
  destruct c; unfold_methods; crunch_logs o;
    unfold events; cbn [snd app logged];
    try reflexivity; congruence.
Qed.

(** *** [updateById], the remaining paths *)

Section UpdateByIdMore.
Context {S : Type} (o : Options S).
Variables (id : string) (update : Value) (s : S).

Lemma updateById_commits (result : Value) :
  outcome (run o (UpdateById id update) s) = Ok result ->
  exists session doc s3 s4 s5,
    reads_document o id s session doc s3
    /\ entityModel o _ (ModelFindByIdAndUpdate id (versioned doc update)
                          (JObj ClsObject [("new", JBool true)])
                          (Some session)) s3 = (Ok result, s4)
    /\ entityModel o _ (SessionCommitTransaction session) s4 = (Ok tt, s5)
    /\ events (run o (UpdateById id update) s)
       = [Invoked ModelStartSession;
          Invoked (SessionStartTransaction session);
          Invoked (ModelFindById id JUndefined (Some session));
          Invoked (ModelFindByIdAndUpdate id (versioned doc update)
                     (JObj ClsObject [("new", JBool true)]) (Some session));
          Invoked (SessionCommitTransaction session);
          Invoked (SessionEndSession session)]
    /\ final (run o (UpdateById id update) s)
       = snd (entityModel o _ (SessionEndSession session) s5).
Proof.
  intros Hok.
  destruct (updateById_success_path o id update s result Hok)
    as (session & doc & s3 & Hread & Hdoc & Hu & Hgo).
  exists session, doc, s3.
  destruct Hread as (s1 & s2 & H1 & H2 & H3).
  assert (Hread : reads_document o id s session doc s3)
    by (exists s1, s2; auto).
  revert Hok. unfold versioned. unfold_methods.
  rewrite H1; cbv beta iota zeta. rewrite H2; cbv beta iota zeta.
  rewrite H3; cbv beta iota zeta. rewrite Hdoc; cbv beta iota zeta.
  cbn [negb]. cbv beta iota zeta.
  rewrite (get_member_nonnullish update "__v" Hu).
  rewrite (get_member_nonnullish doc "__v" (truthy_not_nullish doc Hdoc)).
  cbv beta iota zeta.
  assert (Hpass :
    (if truthy (get_member_opt update "__v")
     then if negb (strict_eq (get_member_opt doc "__v")
                             (get_member_opt update "__v"))
          then false else true
     else true) = true).
  { destruct Hgo as [-> | ->]; [reflexivity|].
    now destruct (truthy (get_member_opt update "__v")). }
  destruct (truthy (get_member_opt update "__v"));
    [ destruct (strict_eq (get_member_opt doc "__v")
                          (get_member_opt update "__v"));
      [ | discriminate Hpass ] | ];
    cbn [negb]; cbv beta iota zeta;
    (destruct (entityModel o Value (ModelFindByIdAndUpdate _ _ _ _) s3)
       as [[updated|e] s4] eqn:H4; cbv beta iota zeta;
     [ | crunch o; discriminate ];
     destruct (entityModel o unit (SessionCommitTransaction session) s4)
       as [[[]|e] s5] eqn:H5; cbv beta iota zeta;
     [ | crunch o; discriminate ];
     destruct (entityModel o unit (SessionEndSession session) s5)
       as [r6 s6] eqn:H6; cbv beta iota zeta;
     unfold outcome, events, final; cbn [fst snd app];
     intros Hr; injection Hr as <-;
     exists s4, s5; repeat split; auto; now rewrite H6).
Qed.

Lemma updateById_nullish_update (session : ClientSession) (doc : Value)
      (s3 : S) :
  reads_document o id s session doc s3 ->
  truthy doc = true ->
  nullish update = true ->
  let r := run o (UpdateById id update) s in
  outcome r = rejected_outcome o session s3
  /\ events r
     = rejected_trace o id session s3
         (TypeError ("Cannot read properties of " ++ toString update
                       ++ " (reading '__v')")).
Proof.
  intros (s1 & s2 & H1 & H2 & H3) Hdoc Hu r. subst r.
  unfold rejected_outcome, rejected_trace.
  unfold_methods.
  rewrite H1; cbv beta iota zeta. rewrite H2; cbv beta iota zeta.
  rewrite H3; cbv beta iota zeta. rewrite Hdoc; cbv beta iota zeta.
  cbn [negb]. cbv beta iota zeta.
  destruct update; try discriminate Hu; cbn [get_member];
    cbv beta iota zeta;
    (destruct (entityModel o unit (SessionAbortTransaction session) s3)
       as [[[]|e] s4]; cbv beta iota zeta; cbn [fst];
     [ destruct (entityModel o unit (SessionEndSession session) s4)
         as [r5 s5];
       cbv beta iota zeta;
       rewrite handleDatabaseError_TypeError; split; reflexivity
     | split; reflexivity ]).
Qed.

End UpdateByIdMore.

(** A method whose driver call rejected ends as the handler does. *)
Ltac as_handler o :=
  unfold fails_as_handler; intros;
  unfold_methods; cbv zeta;
  match goal with
  | H : entityModel o _ _ _ = (Threw _, _) |- _ => rewrite H
  end;
  cbv beta iota zeta;
  match goal with
  | |- context [@handleDatabaseError ?S o ?A ?e ?s1] =>
      let Hout := fresh "Hout" in
      let Hev := fresh "Hev" in
      let Hh := fresh "Hh" in
      let Hl := fresh "Hl" in
      match goal with
      | |- context [@handleDatabaseError S o unit e ?s0] =>
          destruct (@handleDatabaseError_thrown S A unit o e s1 s0)
            as [Hout Hev]
      end;
      destruct (@handleDatabaseError_throws S o A e s1)
        as (? & ? & Hh & Hl);
      rewrite Hh in Hout, Hev; rewrite Hh
  end;
  unfold outcome, events in *; cbn [fst snd] in *;
  match goal with
  | Hev : _ = snd (handleDatabaseError _ _ _),
    Hout : _ = thrown (fst (fst (handleDatabaseError _ _ _))) |- _ =>
      rewrite <- Hev, <- Hout
  end;
  cbn [logged invoked op_name app];
  match goal with
  | Hl : invoked _ = [] |- _ => rewrite Hl
  end;
  repeat split; try reflexivity; eexists; reflexivity.

End PathFacts.

(* ================================================================== *)
(** ** Further properties of the repository *)
(* ================================================================== *)

Import PathFacts.

(** X1.  A call logs at most one line; it logs nothing when [errLogger] is
    off, and nothing when it returns normally. *)
Theorem X1_logging_discipline :
  forall (S : Type) (o : Options S) (R : Type) (c : Call R) (s : S),
    let r := run o c s in
    (List.length (logged (events r)) <= 1)%nat
    /\ (errLogger o = false -> logged (events r) = [])
    /\ (forall v, outcome r = Ok v -> logged (events r) = []).
Proof.
  intros S o R c s r. subst r.
  destruct c; unfold_methods; crunch_logs o;
    unfold events, outcome; cbn [fst snd app logged List.length];
    (split; [ lia | split; [ intros Hoff | intros ? ? ] ]);
    try reflexivity; try congruence; try discriminate.
Qed.

(** A failing call with the logger off, a successful call with it on. *)
Lemma X1_logging_discipline_witness :
  logged (events (run (opts_with (rejecting network_error) false)
                      (Count (JObj ClsObject [])) tt)) = []
  /\ logged (events (run (opts_with (holding JNull false JNull) true)
                         (Count (JObj ClsObject [])) tt)) = [].
Proof.
  split.
  - apply (proj1 (proj2 (X1_logging_discipline unit
                           (opts_with (rejecting network_error) false) Z
                           (Count (JObj ClsObject [])) tt))).
    reflexivity.
  - apply (proj2 (proj2 (X1_logging_discipline unit
                           (opts_with (holding JNull false JNull) true) Z
                           (Count (JObj ClsObject [])) tt)) 0).
    reflexivity.
Defined.

(** X2.  For each method that awaits one driver call inside [try]: when
    that call rejects with [e], whatever the driver would answer to any
    other operation, the method throws exactly what [handleDatabaseError]
    throws for [e], logs exactly what it logs, and has invoked that one
    operation only. *)
Theorem X2_guarded_failure_is_translation :
  forall (S : Type) (o : Options S) (s : S),
    (forall e opts,
        fails_as_handler o (Create e opts) (ModelSave e opts) s)
    /\ (forall es,
           fails_as_handler o (CreateMany es) (ModelCreate es) s)
    /\ (forall id p,
           fails_as_handler o (FindById id p) (ModelFindById id p None) s)
    /\ (forall f,
           fails_as_handler o (Count f) (ModelCountDocuments f) s)
    /\ (forall field f,
           fails_as_handler o (DistinctValues field f)
                            (ModelDistinct field f) s)
    /\ (forall f u,
           fails_as_handler o (UpdateOne f u) (ModelUpdateOne f u) s)
    /\ (forall f u,
           fails_as_handler o (UpdateMany f u) (ModelUpdateMany f u) s)
    /\ (forall f u given,
           fails_as_handler
             o (FindOneAndUpdate f u given)
             (ModelFindOneAndUpdate
                f (sent_update u (options_or_default given))
                (JObj ClsObject
                      [("new", JBool true);
                       ("upsert",
                        JBool (upsert (options_or_default given)))])) s)
    /\ (forall f,
           fails_as_handler o (DeleteOne f) (ModelDeleteOne f) s)
    /\ (forall f,
           fails_as_handler o (DeleteMany f) (ModelDeleteMany f) s)
    /\ (forall p,
           fails_as_handler o (Aggregate p) (ModelAggregate p) s).
Proof.
  intros S o s.
  repeat match goal with |- _ /\ _ => split end.
  - as_handler o.
  - as_handler o.
  - as_handler o.
  - as_handler o.
  - as_handler o.
  - as_handler o.
  - as_handler o.
  - unfold sent_update, options_or_default. as_handler o.
  - as_handler o.
  - as_handler o.
  - as_handler o.
Qed.

(** A [create] that hits a duplicate key, on a driver where only [save]
    rejects. *)
Lemma X2_guarded_failure_is_translation_witness :
  let e := duplicate_key "email" (JStr "a@b.c") in
  let o := opts_with (selective (rejects_only "save") JNull e) true in
  let r := run o (Create (JObj ClsObject [("email", JStr "a@b.c")])
                         JUndefined) tt in
  let h := @handleDatabaseError unit o unit e tt in
  thrown (outcome r) = thrown (outcome h)
  /\ (exists x, outcome r = Threw x)
  /\ logged (events r) = logged (events h)
  /\ invoked (events r) = ["save"].
Proof.
  intros e o.
  apply (proj1 (X2_guarded_failure_is_translation unit o tt)
           (JObj ClsObject [("email", JStr "a@b.c")]) JUndefined e tt).
  reflexivity.
Defined.

(** X3.  Handed [undefined] or [null], [handleDatabaseError] throws a
    [TypeError], not an [HttpException], and logs nothing even with
    [errLogger] on. *)
Theorem X3_nullish_error_is_type_error :
  forall (S : Type) (o : Options S) (A : Type) (e : Value) (s : S),
    nullish e = true ->
    exists msg,
      @handleDatabaseError S o A e s = (Threw (TypeError msg), s, [])
      /\ is_HttpException (TypeError msg) = false.
Proof.
  intros S o A e s H. rewrite handleDatabaseError_nullish_eq by exact H.
  eexists; split; reflexivity.
Qed.

(** The rejection value [undefined]. *)
Lemma X3_nullish_error_is_type_error_witness :
  exists msg,
    @handleDatabaseError unit (opts_with (rejecting JUndefined) true) unit
                         JUndefined tt
    = (Threw (TypeError msg), tt, [])
    /\ is_HttpException (TypeError msg) = false.
Proof.
  apply (X3_nullish_error_is_type_error unit
           (opts_with (rejecting JUndefined) true) unit JUndefined tt).
  reflexivity.
Defined.

(** X4.  For an error with code 11000 and no [keyValue],
    [handleDatabaseError] throws the [TypeError] of [Object.values] instead
    of an [HttpException]; the log line, if any, has been written. *)
Theorem X4_duplicate_key_without_keyValue :
  forall (S : Type) (o : Options S) (A : Type) (e : Value) (s : S),
    nullish e = false ->
    get_member_opt e "code" = JNum 11000 ->
    nullish (get_member_opt e "keyValue") = true ->
    let r := @handleDatabaseError S o A e s in
    outcome r = Threw (TypeError "Cannot convert undefined or null to object")
    /\ http_of (outcome r) = None
    /\ logged (events r) = if errLogger o then [log_line e] else [].
Proof.
  intros S o A e s Hn Hc Hk r. subst r.
  rewrite handleDatabaseError_nonnullish by exact Hn.
  rewrite translate_eq by exact Hn. cbv zeta. rewrite Hc.
  cbn [strict_eq]. rewrite Z.eqb_refl.
  destruct (get_member_opt e "keyValue"); try discriminate Hk;
    unfold outcome, events, log_events; cbn;
    destruct (errLogger o); repeat split; reflexivity.
Qed.

(** A bulk write error: code 11000, no [keyValue]. *)
Lemma X4_duplicate_key_without_keyValue_witness :
  let o := opts_with (rejecting JNull) true in
  let e := JObj ClsError [("name", JStr "MongoBulkWriteError");
                          ("message", JStr "E11000 duplicate key error");
                          ("code", JNum 11000)] in
  let r := @handleDatabaseError unit o unit e tt in
  outcome r = Threw (TypeError "Cannot convert undefined or null to object")
  /\ http_of (outcome r) = None
  /\ logged (events r) = if errLogger o then [log_line e] else [].
Proof.
  intros o e.
  apply (X4_duplicate_key_without_keyValue unit o unit e tt); reflexivity.
Defined.

(** X5.  [find] performs one driver call, with the caller's filter and
    projection, the caller's [skip] and [limit] where given and 0 where not,
    and ends exactly as that call ends. *)
Theorem X5_find_pagination :
  forall (S : Type) (o : Options S) (f p : Value) (opts : option FindOptions)
         (s : S),
    let op := ModelFind f p
                (Some (or_zero (match opts with
                                | Some given => skip given
                                | None => None
                                end),
                       or_zero (match opts with
                                | Some given => limit given
                                | None => None
                                end))) in
    run o (Find f p opts) s
    = (fst (entityModel o _ op s), snd (entityModel o _ op s), [Invoked op]).
Proof.
  intros S o f p opts s op. subst op. unfold_methods.
  rewrite !num_or_zero.
  destruct (entityModel o _ _ s) as [[a|e] s1]; reflexivity.
Qed.

(** X6.  [fullTextSearch] searches [searchField] by a case-insensitive
    [$regex] of [searchText], and ends exactly as the driver call ends: a
    driver error is neither translated nor logged. *)
Theorem X6_fullTextSearch_is_unguarded :
  forall (S : Type) (o : Options S) (searchText searchField : string) (s : S),
    let filter := JObj ClsObject
                       [(searchField,
                         JObj ClsObject [("$regex", JStr searchText);
                                         ("$options", JStr "i")])] in
    let op := ModelFind filter JUndefined None in
    let r := run o (FullTextSearch searchText searchField) s in
    outcome r = fst (entityModel o _ op s)
    /\ final r = snd (entityModel o _ op s)
    /\ events r = [Invoked op]
    /\ get_member filter searchField
       = inl (JObj ClsObject [("$regex", JStr searchText);
                              ("$options", JStr "i")]).
Proof.
  intros S o searchText searchField s filter op r. subst r op filter.
  rewrite fullTextSearch_returns_promise. cbv zeta.
  unfold events, outcome, final; cbn [fst snd].
  repeat split.
  cbn [get_member lookup]. now rewrite String.eqb_refl.
Qed.

(** X7.  [endTransaction] calls [endSession] once and returns normally
    whether or not that call rejects. *)
Theorem X7_endTransaction_never_throws :
  forall (S : Type) (o : Options S) (session : ClientSession) (s : S),
    let r := run o (EndTransaction session) s in
    outcome r = Ok tt
    /\ events r = [Invoked (SessionEndSession session)]
    /\ final r = snd (entityModel o _ (SessionEndSession session) s).
Proof.
  intros S o session s r. subst r. unfold_methods.
  destruct (entityModel o _ _ s) as [[a|e] s1]; repeat split; reflexivity.
Qed.

(** X8.  [isDatabaseConnected] never throws and never logs; it answers true
    exactly when reading [readyState] gives the number 1. *)
Theorem X8_isDatabaseConnected_never_throws :
  forall (S : Type) (o : Options S) (s : S),
    let r := run o IsDatabaseConnected s in
    exists b,
      outcome r = Ok b
      /\ (b = true <-> fst (entityModel o _ ModelDbReadyState s) = Ok (JNum 1))
      /\ logged (events r) = [].
Proof.
  intros S o s r. subst r. unfold_methods.
  destruct (entityModel o _ _ s) as [[a|e] s1]; cbv beta iota zeta;
    unfold outcome, events; cbn [fst snd app logged].
  - exists (strict_eq a (JNum 1)). repeat split; auto.
    + intros H. apply strict_eq_num in H. now subst.
    + intros H. injection H as ->. reflexivity.
  - exists false. repeat split; auto; discriminate.
Qed.

(** X9.  When [findById] returns, the value is truthy and is what the
    driver's [findById] resolved to; the driver was called once. *)
Theorem X9_findById_never_resolves_falsy :
  forall (S : Type) (o : Options S) (id : string) (projection : Value)
         (s : S) (data : Value),
    outcome (run o (FindById id projection) s) = Ok data ->
    truthy data = true
    /\ fst (entityModel o _ (ModelFindById id projection None) s) = Ok data
    /\ events (run o (FindById id projection) s)
       = [Invoked (ModelFindById id projection None)].
Proof.
  intros S o id projection s data. unfold_methods.
  destruct (entityModel o _ _ s) as [[a|e] s1]; cbv beta iota zeta.
  - destruct (truthy a) eqn:Ht; cbn [negb]; cbv beta iota zeta.
    + unfold outcome, events; cbn [fst snd app]. intros H.
      injection H as <-. repeat split; auto.
    + crunch o. discriminate.
  - crunch o. discriminate.
Qed.

(** A document that exists. *)
Lemma X9_findById_never_resolves_falsy_witness :
  let doc := JObj ClsObject [("name", JStr "x")] in
  let o := opts_with (holding doc false JNull) false in
  truthy doc = true
  /\ fst (entityModel o _ (ModelFindById "42" JUndefined None) tt) = Ok doc
  /\ events (run o (FindById "42" JUndefined) tt)
     = [Invoked (ModelFindById "42" JUndefined None)].
Proof.
  intros doc o.
  apply (X9_findById_never_resolves_falsy unit o "42" JUndefined tt doc).
  reflexivity.
Defined.


(** X11.  [deleteOne] and [deleteMany] return a flag exactly when the driver
    call resolves, and the flag is true exactly when [deletedCount] is at
    least 1. *)
Theorem X11_delete_flags :
  forall (S : Type) (o : Options S) (f : Value) (s : S) (b : bool),
    (outcome (run o (DeleteOne f) s) = Ok b <->
     exists res, fst (entityModel o _ (ModelDeleteOne f) s) = Ok res
                 /\ (b = true <-> 1 <= deletedCount res))
    /\ (outcome (run o (DeleteMany f) s) = Ok b <->
        exists res, fst (entityModel o _ (ModelDeleteMany f) s) = Ok res
                    /\ (b = true <-> 1 <= deletedCount res)).
Proof.
  intros S o f s b.
  split; unfold_methods;
    (destruct (entityModel o _ _ s) as [[a|e] s1]; cbv beta iota zeta;
     [ unfold outcome; cbn [fst]; split;
       [ intros H; injection H as H; exists a; split; auto;
         now apply at_least_one_iff
       | intros (res & H & Hb); injection H as <-; f_equal;
         now apply at_least_one_iff ]
     | crunch o; unfold outcome; cbn [fst]; split;
       [ discriminate | intros (res & H & _); discriminate H ] ]).
Qed.

(** X12.  [commitTransaction] that returns normally has called
    [commitTransaction] on the session and nothing else: the session stays
    open.  Every failure goes on to [abortTransaction]; when that resolves,
    the session is ended and the commit error is translated. *)
Theorem X12_commitTransaction_paths :
  forall (S : Type) (o : Options S) (session : ClientSession) (s : S),
    let r := run o (CommitTransaction session) s in
    (forall v, outcome r = Ok v ->
               events r = [Invoked (SessionCommitTransaction session)])
    /\ (forall x, outcome r = Threw x ->
                  exists rest,
                    invoked (events r)
                    = "commitTransaction" :: "abortTransaction" :: rest)
    /\ (forall e s1,
           entityModel o _ (SessionCommitTransaction session) s
           = (Threw e, s1) ->
           fst (entityModel o _ (SessionAbortTransaction session) s1)
           = Ok tt ->
           invoked (events r)
           = ["commitTransaction"; "abortTransaction"; "endSession"]
           /\ thrown (outcome r)
              = thrown (outcome (@handleDatabaseError S o unit e s))).
Proof.
  intros S o session s r. subst r. repeat split.
  - intros v. unfold_methods. crunch o; unfold outcome, events;
      cbn [fst snd app]; intros H; try discriminate H; reflexivity.
  - intros x. unfold_methods. crunch o; unfold outcome, events;
      cbn [fst snd app invoked op_name]; intros H; try discriminate H;
      eexists; reflexivity.
  - revert H H0. unfold_methods. intros ->. cbv beta iota zeta.
    destruct (entityModel o unit (SessionAbortTransaction session) s1)
      as [[[]|e'] s2]; cbn [fst]; intros H; try discriminate H.
    cbv beta iota zeta.
    destruct (entityModel o unit (SessionEndSession session) s2) as [r3 s3].
    cbv beta iota zeta.
    destruct (@handleDatabaseError_throws S o unit e s3) as (x & l & -> & Hl).
    unfold events; cbn [snd app invoked op_name]. rewrite Hl. reflexivity.
  - revert H H0. unfold_methods. intros ->. cbv beta iota zeta.
    destruct (entityModel o unit (SessionAbortTransaction session) s1)
      as [[[]|e'] s2]; cbn [fst]; intros H; try discriminate H.
    cbv beta iota zeta.
    destruct (entityModel o unit (SessionEndSession session) s2) as [r3 s3].
    cbv beta iota zeta.
    destruct (@handleDatabaseError_thrown S unit unit o e s3 s) as [<- _].
    destruct (@handleDatabaseError S o unit e s3) as [[r4 s4] l].
    reflexivity.
Qed.

(** A commit that resolves, and one that rejects. *)
Lemma X12_commitTransaction_paths_witness :
  let ok := opts_with (holding JNull false JNull) false in
  let bad := opts_with (selective (rejects_only "commitTransaction")
                                  JNull network_error) false in
  events (run ok (CommitTransaction 7%nat) tt)
  = [Invoked (SessionCommitTransaction 7%nat)]
  /\ (exists rest,
         invoked (events (run bad (CommitTransaction 7%nat) tt))
         = "commitTransaction" :: "abortTransaction" :: rest)
  /\ invoked (events (run bad (CommitTransaction 7%nat) tt))
     = ["commitTransaction"; "abortTransaction"; "endSession"].
Proof.
  intros ok bad. split; [ | split ].
  - apply (proj1 (X12_commitTransaction_paths unit ok 7%nat tt) tt).
    reflexivity.
  - apply (proj1 (proj2 (X12_commitTransaction_paths unit bad 7%nat tt))
             masked).
    reflexivity.
  - apply (proj2 (proj2 (X12_commitTransaction_paths unit bad 7%nat tt))
             network_error tt); reflexivity.
Defined.

(** X13.  [abortTransaction] that returns normally has called
    [abortTransaction] on the session and nothing else.  When the abort
    rejects, the session is ended and the error is translated. *)
Theorem X13_abortTransaction_paths :
  forall (S : Type) (o : Options S) (session : ClientSession) (s : S),
    let r := run o (AbortTransaction session) s in
    (forall v, outcome r = Ok v ->
               events r = [Invoked (SessionAbortTransaction session)])
    /\ (forall e s1,
           entityModel o _ (SessionAbortTransaction session) s
           = (Threw e, s1) ->
           invoked (events r) = ["abortTransaction"; "endSession"]
           /\ thrown (outcome r)
              = thrown (outcome (@handleDatabaseError S o unit e s))).
Proof.
  intros S o session s r. subst r. repeat split.
  - intros v. unfold_methods. crunch o; unfold outcome, events;
      cbn [fst snd app]; intros H; try discriminate H; reflexivity.
  - revert H. unfold_methods. intros ->. cbv beta iota zeta.
    destruct (entityModel o unit (SessionEndSession session) s1) as [r3 s3].
    cbv beta iota zeta.
    destruct (@handleDatabaseError_throws S o unit e s3) as (x & l & -> & Hl).
    unfold events; cbn [snd app invoked op_name]. rewrite Hl. reflexivity.
  - revert H. unfold_methods. intros ->. cbv beta iota zeta.
    destruct (entityModel o unit (SessionEndSession session) s1) as [r3 s3].
    cbv beta iota zeta.
    destruct (@handleDatabaseError_thrown S unit unit o e s3 s) as [<- _].
    destruct (@handleDatabaseError S o unit e s3) as [[r4 s4] l].
    reflexivity.
Qed.

(** An abort that resolves, and one that rejects. *)
Lemma X13_abortTransaction_paths_witness :
  let ok := opts_with (holding JNull false JNull) false in
  let bad := opts_with (holding JNull true network_error) false in
  events (run ok (AbortTransaction 7%nat) tt)
  = [Invoked (SessionAbortTransaction 7%nat)]
  /\ invoked (events (run bad (AbortTransaction 7%nat) tt))
     = ["abortTransaction"; "endSession"].
Proof.
  intros ok bad. split.
  - apply (proj1 (X13_abortTransaction_paths unit ok 7%nat tt) tt).
    reflexivity.
  - apply (proj2 (X13_abortTransaction_paths unit bad 7%nat tt)
             network_error tt).
    reflexivity.
Defined.

(** X14.  In [updateById] and [startTransaction], an error of [startSession]
    or of [session.startTransaction] reaches the caller as it is, without a
    log line; in the second case no further call is made on the session. *)
Theorem X14_session_setup_errors_are_raw :
  forall (S : Type) (o : Options S) (id : string) (update : Value) (s : S),
    (forall e s1,
        entityModel o _ ModelStartSession s = (Threw e, s1) ->
        run o (UpdateById id update) s
        = (Threw e, s1, [Invoked ModelStartSession])
        /\ run o StartTransaction s
           = (Threw e, s1, [Invoked ModelStartSession]))
    /\ (forall session s1 e s2,
           entityModel o _ ModelStartSession s = (Ok session, s1) ->
           entityModel o _ (SessionStartTransaction session) s1
           = (Threw e, s2) ->
           run o (UpdateById id update) s
           = (Threw e, s2,
              [Invoked ModelStartSession;
               Invoked (SessionStartTransaction session)])
           /\ run o StartTransaction s
              = (Threw e, s2,
                 [Invoked ModelStartSession;
                  Invoked (SessionStartTransaction session)])).
Proof.
  intros S o id update s. split.
  - intros e s1 H. unfold_methods. rewrite H. split; reflexivity.
  - intros session s1 e s2 H1 H2. unfold_methods. rewrite H1.
    cbv beta iota zeta. rewrite H2. split; reflexivity.
Qed.

(** A database that is down, and one without transactions. *)
Lemma X14_session_setup_errors_are_raw_witness :
  let down := opts_with (rejecting network_error) true in
  let old := opts_with (selective (rejects_only "startTransaction")
                                  JNull network_error) true in
  run down (UpdateById "42" (JObj ClsObject [])) tt
  = (Threw network_error, tt, [Invoked ModelStartSession])
  /\ run old StartTransaction tt
     = (Threw network_error, tt,
        [Invoked ModelStartSession; Invoked (SessionStartTransaction 7%nat)]).
Proof.
  intros down old. split.
  - apply (proj1 (X14_session_setup_errors_are_raw unit down "42"
                    (JObj ClsObject []) tt) network_error tt).
    reflexivity.
  - apply (proj2 (X14_session_setup_errors_are_raw unit old "42"
                    (JObj ClsObject []) tt) 7%nat tt network_error tt);
      reflexivity.
Defined.

(** X15.  A successful [updateById] has made exactly six driver calls, in
    order: open the session, start the transaction, read, write, commit,
    end the session; its result is what the write resolved to. *)
Theorem X15_updateById_success_trace :
  forall (S : Type) (o : Options S) (id : string) (update : Value) (s : S)
         (result : Value),
    outcome (run o (UpdateById id update) s) = Ok result ->
    exists session doc s3 s4,
      reads_document o id s session doc s3
      /\ entityModel o _ (ModelFindByIdAndUpdate id (versioned doc update)
                            (JObj ClsObject [("new", JBool true)])
                            (Some session)) s3 = (Ok result, s4)
      /\ events (run o (UpdateById id update) s)
         = [Invoked ModelStartSession;
            Invoked (SessionStartTransaction session);
            Invoked (ModelFindById id JUndefined (Some session));
            Invoked (ModelFindByIdAndUpdate id (versioned doc update)
                       (JObj ClsObject [("new", JBool true)]) (Some session));
            Invoked (SessionCommitTransaction session);
            Invoked (SessionEndSession session)].
Proof.
  intros S o id update s result Hok.
  destruct (updateById_commits o id update s result Hok)
    as (session & doc & s3 & s4 & s5 & Hread & Hw & _ & Hev & _).
  exists session, doc, s3, s4. auto.
Qed.

(** An update without [__v] of a document at version 3. *)
Lemma X15_updateById_success_trace_witness :
  let doc := JObj ClsObject [("__v", JNum 3)] in
  let update := JObj ClsObject [("name", JStr "x")] in
  let o := opts_with (holding doc false JNull) false in
  exists session doc' s3 s4,
    reads_document o "42" tt session doc' s3
    /\ entityModel o _ (ModelFindByIdAndUpdate "42" (versioned doc' update)
                          (JObj ClsObject [("new", JBool true)])
                          (Some session)) s3
       = (Ok (JObj ClsObject [("name", JStr "x"); ("__v", JNum 4)]), s4)
    /\ events (run o (UpdateById "42" update) tt)
       = [Invoked ModelStartSession;
          Invoked (SessionStartTransaction session);
          Invoked (ModelFindById "42" JUndefined (Some session));
          Invoked (ModelFindByIdAndUpdate "42" (versioned doc' update)
                     (JObj ClsObject [("new", JBool true)]) (Some session));
          Invoked (SessionCommitTransaction session);
          Invoked (SessionEndSession session)].
Proof.
  intros doc update o.
  apply (X15_updateById_success_trace unit o "42" update tt).
  reflexivity.
Defined.

(** X16.  When [updateById] succeeds on an update with a truthy [__v], the
    stored [__v] equals the supplied one and the [__v] written is the
    supplied one plus 1. *)
Theorem X16_updateById_accepts_only_matching_version :
  forall (S : Type) (o : Options S) (id : string) (update : Value) (s : S)
         (result : Value),
    outcome (run o (UpdateById id update) s) = Ok result ->
    truthy (get_member_opt update "__v") = true ->
    exists session doc s3,
      reads_document o id s session doc s3
      /\ get_member_opt doc "__v" = get_member_opt update "__v"
      /\ written (events (run o (UpdateById id update) s))
         = [JObj ClsObject
                 (set_prop "__v" (add_one (get_member_opt update "__v"))
                           (own_props update))].
Proof.
  intros S o id update s result Hok Hsup.
  destruct (updateById_success_path o id update s result Hok)
    as (session & doc & s3 & Hread & Hdoc & Hu & Hgo).
  destruct (updateById_proceeds o id update s session doc s3
              Hread Hdoc Hu Hgo) as [_ Hw].
  destruct Hgo as [Hfalsy | Heq]; [ congruence | ].
  apply strict_eq_sound in Heq.
  exists session, doc, s3. repeat split; auto.
  rewrite Hw. unfold versioned. now rewrite Heq.
Qed.

(** The caller supplies the stored version 3. *)
Lemma X16_updateById_accepts_only_matching_version_witness :
  let doc := JObj ClsObject [("__v", JNum 3)] in
  let update := JObj ClsObject [("name", JStr "x"); ("__v", JNum 3)] in
  let o := opts_with (holding doc false JNull) false in
  exists session doc' s3,
    reads_document o "42" tt session doc' s3
    /\ get_member_opt doc' "__v" = get_member_opt update "__v"
    /\ written (events (run o (UpdateById "42" update) tt))
       = [JObj ClsObject
               (set_prop "__v" (add_one (get_member_opt update "__v"))
                         (own_props update))].
Proof.
  intros doc update o.
  apply (X16_updateById_accepts_only_matching_version unit o "42" update tt
           (JObj ClsObject [("name", JStr "x"); ("__v", JNum 4)]));
    reflexivity.
Defined.

(** X17.  [updateById] with [undefined] or [null] as update: the read of
    [update.__v] throws inside [try], the transaction is aborted, nothing
    is written, and the caller gets the translated error. *)
Theorem X17_updateById_nullish_update_is_masked :
  forall (S : Type) (o : Options S) (id : string) (update : Value) (s : S)
         (session : ClientSession) (doc : Value) (s3 : S),
    reads_document o id s session doc s3 ->
    truthy doc = true ->
    nullish update = true ->
    let r := run o (UpdateById id update) s in
    outcome r = rejected_outcome o session s3
    /\ written (events r) = []
    /\ invoked (events r)
       = (["startSession"; "startTransaction"; "findById";
           "abortTransaction"]
          ++ match fst (entityModel o _ (SessionAbortTransaction session) s3)
             with
             | Ok _ => ["endSession"]
             | Threw _ => []
             end)%list.
Proof.
  intros S o id update s session doc s3 Hread Hdoc Hu r.
  destruct (updateById_nullish_update o id update s session doc s3
              Hread Hdoc Hu) as [Hout Hev].
  fold r in Hout, Hev. rewrite Hout, Hev.
  unfold rejected_trace, log_events.
  destruct (fst (entityModel o unit (SessionAbortTransaction session) s3));
    destruct (errLogger o); repeat split; reflexivity.
Qed.

(** The update [undefined]. *)
Lemma X17_updateById_nullish_update_is_masked_witness :
  let doc := JObj ClsObject [("__v", JNum 3)] in
  let o := opts_with (holding doc false JNull) false in
  let r := run o (UpdateById "42" JUndefined) tt in
  outcome r = Threw masked
  /\ written (events r) = []
  /\ invoked (events r)
     = ["startSession"; "startTransaction"; "findById"; "abortTransaction";
        "endSession"].
Proof.
  intros doc o.
  apply (X17_updateById_nullish_update_is_masked unit o "42" JUndefined tt
           7%nat doc tt).
  - exists tt, tt. repeat split.
  - reflexivity.
  - reflexivity.
Defined.

(** X18.  When the document read has no [__v]: an update with a truthy [__v]
    is always rejected without a write, and an update with a falsy [__v] is
    written with [__v] set to [NaN]. *)
Theorem X18_updateById_unversioned_document :
  forall (S : Type) (o : Options S) (id : string) (update : Value) (s : S)
         (session : ClientSession) (doc : Value) (s3 : S),
    reads_document o id s session doc s3 ->
    truthy doc = true ->
    get_member_opt doc "__v" = JUndefined ->
    let r := run o (UpdateById id update) s in
    (truthy (get_member_opt update "__v") = true ->
     outcome r = rejected_outcome o session s3 /\ written (events r) = [])
    /\ (nullish update = false ->
        truthy (get_member_opt update "__v") = false ->
        written (events r)
        = [JObj ClsObject (set_prop "__v" JNaN (own_props update))]).
Proof.
  intros S o id update s session doc s3 Hread Hdoc Hv r. split.
  - intros Hsup.
    assert (Hneq : strict_eq (get_member_opt doc "__v")
                             (get_member_opt update "__v") = false)
      by (rewrite Hv; now apply truthy_not_undefined).
    destruct (updateById_conflict o id update s session doc s3
                Hread Hdoc Hsup Hneq) as [Hout Hev].
    fold r in Hout, Hev. rewrite Hout, Hev. split; auto.
    apply written_rejected_trace.
  - intros Hu Hfalsy.
    destruct (updateById_proceeds o id update s session doc s3
                Hread Hdoc Hu (or_introl Hfalsy)) as [_ Hw].
    fold r in Hw. rewrite Hw. unfold versioned. now rewrite Hv.
Qed.

(** A document without [__v], an update with and one without it. *)
Lemma X18_updateById_unversioned_document_witness :
  let doc := JObj ClsObject [("name", JStr "old")] in
  let o := opts_with (holding doc false JNull) false in
  (outcome (run o (UpdateById "42" (JObj ClsObject [("__v", JNum 1)])) tt)
   = Threw masked
   /\ written (events (run o (UpdateById "42"
                                 (JObj ClsObject [("__v", JNum 1)])) tt)) = [])
  /\ written (events (run o (UpdateById "42"
                                (JObj ClsObject [("name", JStr "x")])) tt))
     = [JObj ClsObject [("name", JStr "x"); ("__v", JNaN)]].
Proof.
  intros doc o. split.
  - apply (proj1 (X18_updateById_unversioned_document unit o "42"
                    (JObj ClsObject [("__v", JNum 1)]) tt 7%nat doc tt
                    (ex_intro _ tt (ex_intro _ tt
                       (conj eq_refl (conj eq_refl eq_refl))))
                    eq_refl eq_refl)).
    reflexivity.
  - apply (proj2 (X18_updateById_unversioned_document unit o "42"
                    (JObj ClsObject [("name", JStr "x")]) tt 7%nat doc tt
                    (ex_intro _ tt (ex_intro _ tt
                       (conj eq_refl (conj eq_refl eq_refl))))
                    eq_refl eq_refl)); reflexivity.
Defined.

(** X19.  Once the session is open and its transaction started, and provided
    [abortTransaction] resolves, [updateById] ends the session as its last
    driver call; it has committed and not aborted when it returns, and
    aborted when it throws. *)
Theorem X19_updateById_ends_session_when_abort_resolves :
  forall (S : Type) (o : Options S) (id : string) (update : Value) (s : S)
         (session : ClientSession) (s1 s2 : S),
    entityModel o _ ModelStartSession s = (Ok session, s1) ->
    entityModel o _ (SessionStartTransaction session) s1 = (Ok tt, s2) ->
    (forall sess s', fst (entityModel o _ (SessionAbortTransaction sess) s')
                     = Ok tt) ->
    let r := run o (UpdateById id update) s in
    let names := invoked (events r) in
    last names EmptyString = "endSession"
    /\ (forall v, outcome r = Ok v ->
                  In "commitTransaction" names
                  /\ ~ In "abortTransaction" names)
    /\ (forall x, outcome r = Threw x -> In "abortTransaction" names).
Proof.
  intros S o id update s session s1 s2 H1 H2 Hab r names. subst names r.
  assert (Habort : forall sess s',
             exists sx, entityModel o unit (SessionAbortTransaction sess) s'
                        = (Ok tt, sx)).
  { intros sess s'. specialize (Hab sess s').
    destruct (entityModel o unit (SessionAbortTransaction sess) s')
      as [r sx]. simpl in Hab. subst r. now exists sx. }
  unfold_methods. rewrite H1. cbv beta iota zeta. rewrite H2.
  crunch_aborting o Habort;
    unfold events, outcome; cbn [fst snd app invoked op_name];
    repeat rewrite invoked_app;
    repeat match goal with H : invoked _ = [] |- _ => rewrite H end;
    cbn [invoked op_name app last];
    (split; [ reflexivity | split; intros ? Hx; try discriminate Hx ]);
    cbn [In]; intuition discriminate.
Qed.

(** A missing document. *)
Lemma X19_updateById_ends_session_when_abort_resolves_witness :
  let o := opts_with (holding JNull false JNull) false in
  let names := invoked (events (run o (UpdateById "42" (JObj ClsObject []))
                                    tt)) in
  last names EmptyString = "endSession"
  /\ In "abortTransaction" names.
Proof.
  intros o names.
  pose proof (X19_updateById_ends_session_when_abort_resolves unit o "42"
                (JObj ClsObject []) tt 7%nat tt tt eq_refl eq_refl
                (fun _ _ => eq_refl)) as H.
  split.
  - exact (proj1 H).
  - exact (proj2 (proj2 H) masked eq_refl).
Defined.

(** X20.  The constructor throws [Error("entityModel is required")] exactly
    when no [entityModel] is given, in particular when called without
    argument; a repository built without [errLogger] never logs. *)
Theorem X20_constructor_requires_model :
  forall (S : Type),
    @constructor S None = inr (Error "entityModel is required")
    /\ (forall given : GivenOptions S,
           given_entityModel given = None <->
           constructor (Some given) = inr (Error "entityModel is required"))
    /\ (forall (given : GivenOptions S) model,
           given_entityModel given = Some model ->
           given_errLogger given = None ->
           exists o,
             constructor (Some given) = inl o
             /\ entityModel o = model
             /\ forall R (c : Call R) s, logged (events (run o c s)) = []).
Proof.
  intros S. split; [ reflexivity | split ].
  - intros given. unfold constructor. cbv zeta.
    destruct (given_entityModel given); split; intros H;
      try reflexivity; discriminate H.
  - intros given model Hm Hl. unfold constructor. cbv zeta.
    rewrite Hm, Hl. eexists. split; [ reflexivity | split; [ reflexivity | ] ].
    intros R c s.
    now apply silent_without_logger.
Qed.

(** A model and no [errLogger]. *)
Lemma X20_constructor_requires_model_witness :
  let given := {| given_entityModel := Some (rejecting network_error);
                  given_errLogger := None |} in
  exists o,
    constructor (Some given) = inl o
    /\ entityModel o = rejecting network_error
    /\ forall R (c : Call R) s, logged (events (run o c s)) = [].
Proof.
  intros given.
  apply (proj2 (proj2 (X20_constructor_requires_model unit)) given
           (rejecting network_error)); reflexivity.
Defined.

(** X21.  [create], [createMany], [count], [distinctValues], [aggregate] and
    [findOneAndUpdate] with default options return [v] exactly when their
    driver call resolves to [v]. *)
Theorem X21_wrappers_return_driver_result :
  forall (S : Type) (o : Options S) (s : S),
    (forall e opts v,
        outcome (run o (Create e opts) s) = Ok v <->
        fst (entityModel o _ (ModelSave e opts) s) = Ok v)
    /\ (forall es v,
           outcome (run o (CreateMany es) s) = Ok v <->
           fst (entityModel o _ (ModelCreate es) s) = Ok v)
    /\ (forall f n,
           outcome (run o (Count f) s) = Ok n <->
           fst (entityModel o _ (ModelCountDocuments f) s) = Ok n)
    /\ (forall field f v,
           outcome (run o (DistinctValues field f) s) = Ok v <->
           fst (entityModel o _ (ModelDistinct field f) s) = Ok v)
    /\ (forall p v,
           outcome (run o (Aggregate p) s) = Ok v <->
           fst (entityModel o _ (ModelAggregate p) s) = Ok v)
    /\ (forall f u v,
           outcome (run o (FindOneAndUpdate f u None) s) = Ok v <->
           fst (entityModel o _
                  (ModelFindOneAndUpdate f u
                     (JObj ClsObject [("new", JBool true);
                                      ("upsert", JBool false)])) s) = Ok v).
Proof.
  intros S o s.
  repeat match goal with |- _ /\ _ => split end; intros;
    unfold_methods; cbv zeta; cbn [incVersion upsert default_UpdateOptions];
    (destruct (entityModel o _ _ s) as [[a|e'] s1]; cbv beta iota zeta;
     [ unfold outcome; cbn [fst]; reflexivity
     | crunch o; unfold outcome; cbn [fst]; split; discriminate ]).
Qed.
